(** * quiz-bot: the quiz session state machine of [app.py]

    A shallow embedding of [src/app.py]: the registry [user_states], the
    question loader, the three handlers ([start_quiz], [ask_question],
    [handle_answer]) and the body of the polling loop of [main], followed
    by the properties of the session state machine.

    Conventions of the embedding.
    - Python values that come out of [json.load] are terms of [json].
    - A Python exception is a constructor of [exn]; pure operations that may
      raise return [py A = exn + A], stateful code runs in the monad [M],
      whose outcome is either [Ret] or [Raise], both with the state reached.
      Nothing in [main] catches an exception, so a [Raise] that leaves a
      handler ends the process.
    - The Messaging Gateway is modelled by the requests the code issues, in
      order ([outbox]).  [send_message] swallows transport errors, so the
      transport's answer has no influence on the rest of the program.
    - [logging] calls are not modelled. *)

From Stdlib Require Import ZArith QArith String List Sorted Lia.
From stdpp Require Import base option list gmap strings.
Import ListNotations.

Local Open Scope string_scope.
Local Open Scope list_scope.
Local Open Scope Z_scope.

(** ** Python values *)

(** What [json.load] returns.  A number is kept as the rational it denotes
    (the code only ever tests a number for truth).  An object is the list of
    its members in insertion order; it stands for the [dict] built by the
    parser, whose keys are distinct. *)
#[warnings="-register-all"]
Inductive json : Type :=
| JNull
| JBool (b : bool)
| JNum (q : Q)
| JStr (s : string)
| JArr (items : list json)
| JObj (members : list (string * json)).

(** The exceptions that can occur in the modelled code. *)
Inductive exn : Type :=
| KeyError
| IndexError
| TypeError
| FileNotFoundError
| JSONDecodeError
| PermissionError
| UnicodeDecodeError.

(** A pure Python computation: [inl e] raises [e], [inr a] returns [a]. *)
Definition py (A : Type) : Type := (exn + A)%type.

(** [bool(v)], the test of [if questions:]. *)
Definition truthy (v : json) : bool :=
  match v with
  | JNull => false
  | JBool b => b
  | JNum q => negb (Qeq_bool q 0)
  | JStr s => negb (String.eqb s "")
  | JArr items => match items with [] => false | _ :: _ => true end
  | JObj members => match members with [] => false | _ :: _ => true end
  end.

(** A Python [str] is kept as its UTF-8 encoding.  A character (code
    point) is one byte that is not a continuation byte, followed by the
    continuation bytes (binary [10xxxxxx]) that belong to it. *)
Definition is_continuation (a : Ascii.ascii) : bool :=
  match a with
  | Ascii.Ascii _ _ _ _ _ _ b6 b7 => b7 && negb b6
  end.

(** The bytes in front of the first character (none in a well-formed
    string), and the characters. *)
Fixpoint split_chars (s : string) : string * list string :=
  match s with
  | EmptyString => (EmptyString, [])
  | String a s' =>
      let (pending, done) := split_chars s' in
      if is_continuation a then (String a pending, done)
      else (EmptyString, String a pending :: done)
  end.

(** The characters of a string, each as a string of length one: what
    iterating over a [str] yields, and what its subscripts select. *)
Definition chars (s : string) : list json :=
  let (pending, done) := split_chars s in
  map JStr (match pending with
            | EmptyString => done
            | String _ _ => pending :: done
            end).

(** [len(v)]. *)
Definition py_len (v : json) : py Z :=
  match v with
  | JArr items => inr (Z.of_nat (length items))
  | JObj members => inr (Z.of_nat (length members))
  | JStr s => inr (Z.of_nat (length (chars s)))
  | _ => inl TypeError
  end.

(** [l[i]] on a Python sequence: a negative index counts from the end. *)
Definition seq_getitem (l : list json) (i : Z) : py json :=
  let n := Z.of_nat (length l) in
  let j := if i <? 0 then i + n else i in
  if (0 <=? j) && (j <? n) then
    match l !! Z.to_nat j with
    | Some x => inr x
    | None => inl IndexError
    end
  else inl IndexError.

(** [v[i]] for an integer [i].  The keys of a parsed object are strings, so
    an integer is never one of them. *)
Definition getitem_int (v : json) (i : Z) : py json :=
  match v with
  | JArr items => seq_getitem items i
  | JStr s => seq_getitem (chars s) i
  | JObj _ => inl KeyError
  | _ => inl TypeError
  end.

Fixpoint assoc (k : string) (members : list (string * json)) : option json :=
  match members with
  | [] => None
  | (k', v) :: rest => if String.eqb k k' then Some v else assoc k rest
  end.

(** [v[k]] for a string [k]. *)
Definition getitem_str (v : json) (k : string) : py json :=
  match v with
  | JObj members =>
      match assoc k members with
      | Some x => inr x
      | None => inl KeyError
      end
  | _ => inl TypeError
  end.

(** [for option in v]: the elements of a list, the keys of a dict, the
    characters of a string. *)
Definition py_iter (v : json) : py (list json) :=
  match v with
  | JArr items => inr items
  | JObj members => inr (map (fun kv => JStr (fst kv)) members)
  | JStr s => inr (chars s)
  | _ => inl TypeError
  end.

(** [answer == correct_answer] where [answer] is a [str]. *)
Definition str_eq (answer : string) (v : json) : bool :=
  match v with
  | JStr s => String.eqb answer s
  | _ => false
  end.

(** ** Messages and program state *)

(** One button of the inline keyboard. *)
Record button : Type := Button { btn_text : json; callback_data : json }.

(** The text argument of each [send_message] call of the program, by call
    site, with the values interpolated into it. *)
Inductive reply : Type :=
| Greeting                              (* "Привет! ... Отправь /quiz ..." *)
| Unavailable                           (* "Игра недоступна. ..." *)
| GameOver                              (* "Игра окончена.\nНапишите /quiz ..." *)
| Correct                               (* "Правильно! ..." *)
| Incorrect (correct_answer : json)     (* "Неправильно! ... Правильный ответ: {correct_answer}" *)
| Summary (score total : Z)             (* "Игра окончена! ... {score} из {len(questions)} вопросов" *)
| Ask (question_text : json).           (* question_data["question"] *)

(** A request to the messaging platform. *)
Inductive request : Type :=
| SendMessage (chat_id : Z) (text : reply) (reply_markup : option (list (list button)))
| AnswerCallbackQuery (callback_query_id : string).

(** A value of [user_states]. *)
Record session : Type := Session {
  score : Z;
  current_question : Z;
  questions : json
}.

(** The state of the process: the global [user_states], the requests issued
    so far, and the local [offset] of [main] ([None] is Python's [None]). *)
Record state : Type := State {
  user_states : gmap Z session;
  outbox : list request;
  offset : option Z
}.

Definition init : state :=
  {| user_states := ∅; outbox := []; offset := None |}.

(** ** The monad of stateful, possibly raising code *)

Inductive outcome (A : Type) : Type :=
| Ret (a : A) (st : state)
| Raise (e : exn) (st : state).
Arguments Ret {A} a st.
Arguments Raise {A} e st.

Definition M (A : Type) : Type := state -> outcome A.

Definition ret {A} (a : A) : M A := fun st => Ret a st.

Definition bind {A B} (c : M A) (k : A -> M B) : M B :=
  fun st =>
    match c st with
    | Ret a st' => k a st'
    | Raise e st' => Raise e st'
    end.

Definition raise {A} (e : exn) : M A := fun st => Raise e st.

Definition lift {A} (r : py A) : M A :=
  match r with
  | inl e => raise e
  | inr a => ret a
  end.

Declare Scope py_scope.
Delimit Scope py_scope with py.
Notation "x <- c ;; k" := (bind c (fun x => k))
  (at level 100, c at next level, k at level 200, right associativity) : py_scope.
Notation "c ;; k" := (bind c (fun _ => k))
  (at level 100, k at level 200, right associativity) : py_scope.
Local Open Scope py_scope.

(** The state an outcome ends in. *)
Definition final {A} (o : outcome A) : state :=
  match o with
  | Ret _ st => st
  | Raise _ st => st
  end.

Definition returns {A} (o : outcome A) : bool :=
  match o with
  | Ret _ _ => true
  | Raise _ _ => false
  end.

(** Primitive accesses to the state. *)

(** [user_states[chat_id]]. *)
Definition get_state (chat_id : Z) : M session :=
  fun st =>
    match user_states st !! chat_id with
    | Some s => Ret s st
    | None => Raise KeyError st
    end.

(** [user_states[chat_id] = s]. *)
Definition set_state (chat_id : Z) (s : session) : M unit :=
  fun st =>
    Ret tt {| user_states := <[chat_id := s]> (user_states st);
              outbox := outbox st; offset := offset st |}.

(** [del user_states[chat_id]]. *)
Definition del_state (chat_id : Z) : M unit :=
  fun st =>
    match user_states st !! chat_id with
    | Some _ =>
        Ret tt {| user_states := delete chat_id (user_states st);
                  outbox := outbox st; offset := offset st |}
    | None => Raise KeyError st
    end.

(** An in-place update of the dict [state = user_states[chat_id]], as in
    [state['score'] += 1]: the registry entry itself changes. *)
Definition mutate_state (chat_id : Z) (f : session -> session) : M unit :=
  fun st =>
    Ret tt {| user_states := alter f chat_id (user_states st);
              outbox := outbox st; offset := offset st |}.

(** [requests.post] inside a [try] that swallows the transport error. *)
Definition post (r : request) : M unit :=
  fun st =>
    Ret tt {| user_states := user_states st;
              outbox := outbox st ++ [r]; offset := offset st |}.

Definition set_offset (o : Z) : M unit :=
  fun st =>
    Ret tt {| user_states := user_states st;
              outbox := outbox st; offset := Some o |}.

(** ** The program *)

(** [get_questions]: [load] is what [json.load(open('questions.json'))]
    does when it is called; the two caught exceptions become [None]. *)
Definition get_questions (load : py json) : M json :=
  match load with
  | inr questions => ret questions
  | inl FileNotFoundError => ret JNull
  | inl JSONDecodeError => ret JNull
  | inl e => raise e
  end.

Definition send_message (chat_id : Z) (text : reply)
    (reply_markup : option (list (list button))) : M unit :=
  post (SendMessage chat_id text reply_markup).

Definition ask_question (chat_id : Z) : M unit :=
  state <- get_state chat_id ;;
  let question_index := current_question state in
  let qs := questions state in
  n <- lift (py_len qs) ;;
  if n <=? question_index then
    send_message chat_id (Summary (score state) n) None ;;
    del_state chat_id
  else
    question_data <- lift (getitem_int qs question_index) ;;
    question_text <- lift (getitem_str question_data "question") ;;
    options <- lift (getitem_str question_data "options") ;;
    opts <- lift (py_iter options) ;;
    let option_buttons := map (fun option => Button option option) opts in
    send_message chat_id (Ask question_text) (Some [option_buttons]).

Definition start_quiz (load : py json) (chat_id : Z) : M unit :=
  qs <- get_questions load ;;
  if truthy qs then
    set_state chat_id {| score := 0; current_question := 0; questions := qs |} ;;
    ask_question chat_id
  else
    send_message chat_id Unavailable None.

Definition handle_answer (chat_id : Z) (answer : string)
    (callback_query_id : string) : M unit :=
  post (AnswerCallbackQuery callback_query_id) ;;
  fun st =>
    match user_states st !! chat_id with
    | None => send_message chat_id GameOver None st
    | Some state =>
        (let question_index := current_question state in
         question_data <- lift (getitem_int (questions state) question_index) ;;
         correct_answer <- lift (getitem_str question_data "answer") ;;
         (if str_eq answer correct_answer then
            mutate_state chat_id (fun s =>
              {| score := score s + 1;
                 current_question := current_question s;
                 questions := questions s |}) ;;
            send_message chat_id Correct None
          else
            send_message chat_id (Incorrect correct_answer) None) ;;
         mutate_state chat_id (fun s =>
           {| score := score s;
              current_question := current_question s + 1;
              questions := questions s |}) ;;
         ask_question chat_id) st
    end.

(** ** The polling loop *)

(** The parts of an update that [main] reads: [message_data["chat"]["id"]],
    [message_data["date"]], the optional [message_data["text"]]; and of a
    callback [callback["id"]], [callback["from"]["id"]], [callback["data"]]. *)
Record message : Type := Message {
  chat : Z;
  date : Z;
  text : option string
}.

Record callback : Type := Callback {
  cb_id : string;
  from : Z;
  data : string
}.

Record update : Type := Update {
  update_id : Z;
  message_data : option message;
  callback_query : option callback
}.

(** What the surroundings answer while one update is handled: the clock
    reading of [time.time()] and the outcome of reading the question file. *)
Record env : Type := Env {
  now : Q;
  load : py json
}.

(** [message_data["date"] < time.time() - 10]. *)
Definition stale (now : Q) (date : Z) : bool :=
  negb (Qle_bool (now - 10) (inject_Z date)).

(** Lines 169-174: the callback part of the loop body. *)
Definition on_callback (u : update) : M unit :=
  match callback_query u with
  | Some callback => handle_answer (from callback) (data callback) (cb_id callback)
  | None => ret tt
  end.

(** Lines 154-174: the loop body after the cursor assignment. *)
Definition route (e : env) (u : update) : M unit :=
  match message_data u with
  | Some m =>
      let chat_id := chat m in
      if stale (now e) (date m) then ret tt  (* continue *)
      else
        match text m with
        | Some t =>
            if String.eqb t "/start" then send_message chat_id Greeting None
            else if String.eqb t "/quiz" then start_quiz (load e) chat_id
            else ret tt
        | None => ret tt
        end ;;
        on_callback u
  | None => on_callback u
  end.

(** The body of [for update in updates.get("result", [])]. *)
Definition handle_update (e : env) (u : update) : M unit :=
  set_offset (update_id u + 1) ;;
  route e u.

(** One batch, in arrival order.  An exception leaves the loop. *)
Fixpoint for_updates (batch : list (env * update)) : M unit :=
  match batch with
  | [] => ret tt
  | (e, u) :: rest => handle_update e u ;; for_updates rest
  end.

(** A finite prefix of [while True]: one batch per call of [get_updates]. *)
Fixpoint main (polls : list (list (env * update))) : M unit :=
  match polls with
  | [] => ret tt
  | batch :: later => for_updates batch ;; main later
  end.


(** ** The state machine and its reachable states *)

(** The operations of the session state machine. *)
Inductive op : Type :=
| Start (ld : py json) (chat_id : Z)
| Answer (chat_id : Z) (answer cbq : string).

Definition exec (o : op) : M unit :=
  match o with
  | Start ld chat_id => start_quiz ld chat_id
  | Answer chat_id answer cbq => handle_answer chat_id answer cbq
  end.

(** The states the running process can be in whenever a handler is about
    to run: from the initial state, by cursor assignments, messages sent by
    the loop itself, and operations that returned.  An operation that
    raises ends the process. *)
Inductive reachable : state -> Prop :=
| reachable_init : reachable init
| reachable_cursor st o :
    reachable st ->
    reachable {| user_states := user_states st; outbox := outbox st;
                 offset := Some o |}
| reachable_send st c t mk st' :
    reachable st -> send_message c t mk st = Ret tt st' -> reachable st'
| reachable_exec st o st' :
    reachable st -> exec o st = Ret tt st' -> reachable st'.

(** ** Notions used in the statements *)

(** The session dict after both updates of [handle_answer]. *)
Definition answered (s : session) (answer : string) (correct_answer : json) : session :=
  {| score := if str_eq answer correct_answer then score s + 1 else score s;
     current_question := current_question s + 1;
     questions := questions s |}.

(** A session of the running process: its questions are a JSON array, its
    index points into the array, and its score counts answered questions. *)
Definition session_ok (s : session) : Prop :=
  exists items,
    questions s = JArr items /\
    0 <= current_question s < Z.of_nat (length items) /\
    0 <= score s <= current_question s.

Definition registry_ok (m : gmap Z session) : Prop :=
  forall c s, m !! c = Some s -> session_ok s.

(** What the code needs of a question record: the three subscripts of
    [ask_question] and [handle_answer] succeed and the options can be
    iterated.  (The code validates nothing; a record that fails this makes
    a handler raise.) *)
Definition is_question (q : json) : bool :=
  match getitem_str q "question", getitem_str q "options", getitem_str q "answer" with
  | inr _, inr options, inr _ =>
      match py_iter options with inr _ => true | inl _ => false end
  | _, _, _ => false
  end.

(** The answer events of one user, one after the other; each is a pair of
    the button's payload and the callback identifier. *)
Fixpoint answer_all (c : Z) (answers : list (string * string)) : M unit :=
  match answers with
  | [] => ret tt
  | (answer, cbq) :: rest => handle_answer c answer cbq ;; answer_all c rest
  end.

(** The number of answers that equal the [answer] field of their question. *)
Fixpoint marks (items : list json) (answers : list string) : Z :=
  match items, answers with
  | q :: items', a :: answers' =>
      match getitem_str q "answer" with
      | inr correct_answer => if str_eq a correct_answer then 1 else 0
      | inl _ => 0
      end + marks items' answers'
  | _, _ => 0
  end.

(** The summary messages among some requests: recipient, score, total. *)
Fixpoint summaries (out : list request) : list (Z * Z * Z) :=
  match out with
  | [] => []
  | SendMessage c (Summary sc n) _ :: out' => (c, sc, n) :: summaries out'
  | _ :: out' => summaries out'
  end.

(** A quiz from the start command to some number of answers. *)
Definition play (items : list json) (c : Z) (answers : list (string * string)) : M unit :=
  start_quiz (inr (JArr items)) c ;; answer_all c answers.

(** The cursor after each update of a batch, as far as the loop gets. *)
Fixpoint cursors (batch : list (env * update)) (st : state) : list (option Z) :=
  match batch with
  | [] => []
  | (e, u) :: rest =>
      let o := handle_update e u st in
      offset (final o) :: (if returns o then cursors rest (final o) else [])
  end.

(** Order on cursor values; [None] is the unset cursor of a fresh process. *)
Definition cursor_lt (a b : option Z) : Prop :=
  match a, b with
  | Some x, Some y => x < y
  | None, Some _ => True
  | _, None => False
  end.

Definition increasing (l : list (option Z)) : Prop := StronglySorted cursor_lt l.

Definition sample_question (t a : string) : json :=
  JObj [("question", JStr t);
        ("options", JArr [JStr "yes"; JStr "no"]);
        ("answer", JStr a)].

Definition sample_quiz : list json :=
  [sample_question "Is 2 even?" "yes";
   sample_question "Is 3 even?" "no";
   sample_question "Is 4 even?" "yes"].

Definition sample_env : env := Env 100 (inr (JArr sample_quiz)).

(** Three updates with increasing identifiers. *)
Definition sample_batch : list (env * update) :=
  [(sample_env, Update 5 None None);
   (sample_env, Update 6 (Some (Message 7 95 (Some "/quiz"))) None);
   (sample_env, Update 9 None (Some (Callback "cb1" 7 "yes")))].

(** Two updates whose identifiers arrive in decreasing order. *)
Definition backwards_batch : list (env * update) :=
  [(sample_env, Update 5 None None); (sample_env, Update 3 None None)].

(** User 7 has sent [/quiz] and has been shown the first question. *)
Definition sample_started : state :=
  final (handle_update sample_env
           (Update 1 (Some (Message 7 95 (Some "/quiz"))) None) init).

(** User 7 has then answered the first question rightly. *)
Definition sample_answered : state :=
  final (handle_answer 7 "yes" "cb1" sample_started).

(** User 7 has then sent [/quiz] once more. *)
Definition sample_restarted : state :=
  final (start_quiz (inr (JArr sample_quiz)) 7 sample_answered).

(** User 7 has answered the first two of the three questions, both
    rightly, and is at the last one. *)
Definition sample_at_last : state :=
  final (answer_all 7 [("yes", "cb1"); ("no", "cb2")] sample_started).

(** ** Start-up and fetching *)

(** Lines 16-18 and 179-183: what the script does with the [TOKEN] variable
    of the environment ([None] when it is not set): the module raises
    [ValueError] while it is loaded, or calls [main], or logs an error. *)
Inductive boot : Type :=
| BootValueError
| BootMain
| BootLogError.

(** [bool(TOKEN)] for [TOKEN = os.getenv("TOKEN")]. *)
Definition token_truthy (token : option string) : bool :=
  match token with
  | None => false
  | Some t => negb (String.eqb t "")
  end.

Definition startup (token : option string) : boot :=
  if negb (token_truthy token) then BootValueError
  else if token_truthy token then BootMain
  else BootLogError.

(** The answer to one [getUpdates] request: a [RequestException] (transport
    error, bad status), or the decoded body, a dict that may or may not
    have a ["result"] entry.  Each update is paired with what the
    surroundings answer while it is handled. *)
Inductive fetch : Type :=
| FetchError
| Body (result : option (list (env * update))).

(** [get_updates]: the body, or [{"result": []}] after an exception. *)
Definition get_updates (f : fetch) : option (list (env * update)) :=
  match f with
  | FetchError => Some []
  | Body result => result
  end.

(** [updates.get("result", [])]. *)
Definition get_result (updates : option (list (env * update))) : list (env * update) :=
  match updates with
  | Some result => result
  | None => []
  end.

(** A finite prefix of [while True], one [get_updates] call per iteration. *)
Fixpoint main_loop (polls : list fetch) : M unit :=
  match polls with
  | [] => ret tt
  | f :: later => for_updates (get_result (get_updates f)) ;; main_loop later
  end.

(** The user an operation is about. *)
Definition op_user (o : op) : Z :=
  match o with
  | Start _ chat_id => chat_id
  | Answer chat_id _ _ => chat_id
  end.

(** A summary that reports between 0 and [total] right answers out of at
    least one question. *)
Definition summary_ok (x : Z * Z * Z) : Prop :=
  0 <= snd (fst x) <= snd x /\ 1 <= snd x.

(** ** Basic facts about the primitives *)

Ltac run := unfold bind, ret, raise, lift, send_message, post, set_state,
  mutate_state, set_offset; simpl.

Lemma stale_iff (t : Q) (d : Z) :
  stale t d = true <-> (inject_Z d < t - 10)%Q.
Proof.
  unfold stale. rewrite negb_true_iff. split.
  - intros H. apply Qnot_le_lt. intros Hle.
    apply Qle_bool_iff in Hle. congruence.
  - intros H. destruct (Qle_bool (t - 10) (inject_Z d)) eqn:E; [|reflexivity].
    apply Qle_bool_iff in E. exfalso. exact (Qlt_not_le _ _ H E).
Qed.

Lemma get_questions_error (ld : py json) (st : state) :
  ld = inl FileNotFoundError \/ ld = inl JSONDecodeError ->
  get_questions ld st = Ret JNull st.
Proof. intros [-> | ->]; reflexivity. Qed.

(** ** No session: the answer handler only replies *)

Lemma answer_without_session (chat_id : Z) (answer cbq : string) (st : state) :
  user_states st !! chat_id = None ->
  handle_answer chat_id answer cbq st =
    Ret tt {| user_states := user_states st;
              outbox := outbox st ++
                [AnswerCallbackQuery cbq; SendMessage chat_id GameOver None];
              offset := offset st |}.
Proof.
  intros Hno. unfold handle_answer. run. rewrite Hno.
  rewrite <- app_assoc. reflexivity.
Qed.

(** C4. An answer event of a user who has no entry in [user_states] is
    acknowledged, answered with the "game over, send /quiz" prompt, and the
    handler returns with the registry (hence every session's score and
    current question) exactly as it was. *)
Theorem handle_answer_no_session (chat_id : Z) (answer cbq : string) (st : state) :
  user_states st !! chat_id = None ->
  handle_answer chat_id answer cbq st =
    Ret tt {| user_states := user_states st;
              outbox := outbox st ++
                [AnswerCallbackQuery cbq; SendMessage chat_id GameOver None];
              offset := offset st |}.
Proof. exact (answer_without_session chat_id answer cbq st). Qed.

Lemma handle_answer_no_session_witness :
  user_states init !! 7 = None /\
  handle_answer 7 "Paris" "cb1" init =
    Ret tt {| user_states := ∅;
              outbox := [AnswerCallbackQuery "cb1"; SendMessage 7 GameOver None];
              offset := None |}.
Proof.
  split; [reflexivity |].
  apply (handle_answer_no_session 7 "Paris" "cb1" init). reflexivity.
Defined.

(** ** Loading fails or yields nothing *)

(** X19. When reading the question file raises [FileNotFoundError] (no
    such file) or [JSONDecodeError] (text that is not JSON), the two
    exceptions the [except] clause names, [get_questions] returns [None],
    and the start command returns normally having sent exactly one message,
    the "unavailable" notification, with [user_states] untouched. *)
Theorem start_quiz_load_error (ld : py json) (chat_id : Z) (st : state) :
  ld = inl FileNotFoundError \/ ld = inl JSONDecodeError ->
  get_questions ld st = Ret JNull st /\
  start_quiz ld chat_id st =
    Ret tt {| user_states := user_states st;
              outbox := outbox st ++ [SendMessage chat_id Unavailable None];
              offset := offset st |} /\
  forall (e : env) (i d : Z),
    stale (now e) d = false ->
    load e = ld ->
    handle_update e (Update i (Some (Message chat_id d (Some "/quiz"))) None) st =
      Ret tt {| user_states := user_states st;
                outbox := outbox st ++ [SendMessage chat_id Unavailable None];
                offset := Some (i + 1) |}.
Proof.
  intros H. split; [exact (get_questions_error ld st H) |].
  assert (Hstart : forall st0, start_quiz ld chat_id st0 =
            Ret tt {| user_states := user_states st0;
                      outbox := outbox st0 ++ [SendMessage chat_id Unavailable None];
                      offset := offset st0 |}).
  { intros st0. unfold start_quiz, bind.
    rewrite (get_questions_error ld st0 H). reflexivity. }
  split; [apply Hstart |].
  intros e i d Hfresh Hload. unfold handle_update, route, bind, set_offset. simpl.
  rewrite Hfresh, Hload, Hstart. reflexivity.
Qed.

Lemma start_quiz_load_error_witness :
  (inl FileNotFoundError = inl FileNotFoundError :> py json \/
   inl FileNotFoundError = inl JSONDecodeError :> py json) /\
  get_questions (inl FileNotFoundError) init = Ret JNull init /\
  start_quiz (inl FileNotFoundError) 7 init =
    Ret tt {| user_states := ∅;
              outbox := [SendMessage 7 Unavailable None];
              offset := None |}.
Proof.
  split; [left; reflexivity |].
  destruct (start_quiz_load_error (inl FileNotFoundError) 7 init
              (or_introl eq_refl)) as (Hload & Hstart & _).
  split; [exact Hload | exact Hstart].
Defined.

(** C5. A question file whose bytes are not valid UTF-8 is malformed, yet
    the [except] clause of [get_questions] does not name the
    [UnicodeDecodeError] that reading it raises: [get_questions] raises
    instead of returning [None], the start command sends no "unavailable"
    message, and the exception leaves the polling loop, which ends with the
    cursor past the [/quiz] update. *)
Theorem undecodable_file_crashes (c i : Z) (st : state) :
  get_questions (inl UnicodeDecodeError) st = Raise UnicodeDecodeError st /\
  start_quiz (inl UnicodeDecodeError) c st = Raise UnicodeDecodeError st /\
  main_loop
    [Body (Some [(Env 100 (inl UnicodeDecodeError),
                  Update i (Some (Message c 95 (Some "/quiz"))) None)])] st =
    Raise UnicodeDecodeError
      {| user_states := user_states st; outbox := outbox st;
         offset := Some (i + 1) |}.
Proof. repeat split. Qed.

(** Beyond the two caught exceptions nothing is checked: a file that parses
    to a number makes the start command raise after the session has been
    stored, and a read error of another kind leaves [get_questions] as it
    came. *)
Example start_quiz_not_a_list :
  start_quiz (inr (JNum 5)) 7 init =
    Raise TypeError
      {| user_states := {[ 7 := Session 0 0 (JNum 5) ]}; outbox := []; offset := None |} /\
  start_quiz (inl UnicodeDecodeError) 7 init = Raise UnicodeDecodeError init.
Proof. split; reflexivity. Qed.

(** C10. A file that parses to the empty list is not an error for
    [get_questions], which returns the list itself; yet the start command
    does exactly what it does after a load error: it sends the
    "unavailable" notification and creates no session. *)
Theorem start_quiz_empty_list (chat_id : Z) (st : state) :
  get_questions (inr (JArr [])) st = Ret (JArr []) st /\
  start_quiz (inr (JArr [])) chat_id st =
    Ret tt {| user_states := user_states st;
              outbox := outbox st ++ [SendMessage chat_id Unavailable None];
              offset := offset st |} /\
  start_quiz (inr (JArr [])) chat_id st =
    start_quiz (inl FileNotFoundError) chat_id st /\
  start_quiz (inr (JArr [])) chat_id st =
    start_quiz (inl JSONDecodeError) chat_id st.
Proof. repeat split. Qed.

(** ** The staleness filter *)

(** C6. An update whose message is dated more than 10 seconds before the
    clock reading is dropped: the loop body returns, no request is issued
    and [user_states] is unchanged; only the cursor has moved. *)
Theorem stale_update_discarded (e : env) (u : update) (m : message) (st : state) :
  message_data u = Some m ->
  (inject_Z (date m) < now e - 10)%Q ->
  handle_update e u st =
    Ret tt {| user_states := user_states st;
              outbox := outbox st;
              offset := Some (update_id u + 1) |}.
Proof.
  intros Hm Hold. apply stale_iff in Hold.
  unfold handle_update, route. run. rewrite Hm, Hold. reflexivity.
Qed.

Lemma stale_update_discarded_witness :
  message_data (Update 5 (Some (Message 7 80 (Some "/quiz")))
                         (Some (Callback "cb1" 7 "Paris")))
    = Some (Message 7 80 (Some "/quiz")) /\
  (inject_Z 80 < 100 - 10)%Q /\
  handle_update (Env 100 (inr (JArr [JNull])))
      (Update 5 (Some (Message 7 80 (Some "/quiz")))
                (Some (Callback "cb1" 7 "Paris"))) init =
    Ret tt {| user_states := ∅; outbox := []; offset := Some 6 |}.
Proof.
  split; [reflexivity |]. split; [reflexivity |].
  apply (stale_update_discarded (Env 100 (inr (JArr [JNull])))
           (Update 5 (Some (Message 7 80 (Some "/quiz")))
                     (Some (Callback "cb1" 7 "Paris")))
           (Message 7 80 (Some "/quiz")) init); reflexivity.
Defined.

(** ** Indexing and the question prompt *)

Lemma alter_Some (f : session -> session) (m : gmap Z session) (c : Z) (s : session) :
  m !! c = Some s -> alter f c m = <[c := f s]> m.
Proof.
  intros H. apply map_eq. intros i.
  destruct (decide (c = i)) as [<- | Hne].
  - rewrite lookup_alter_eq, lookup_insert_eq, H. reflexivity.
  - rewrite lookup_alter_ne, lookup_insert_ne by exact Hne. reflexivity.
Qed.

(** Every character of a string is a string, and a non-empty string has
    at least one. *)
Lemma chars_JStr (s : string) (x : json) :
  In x (chars s) -> exists t, x = JStr t.
Proof.
  unfold chars. destruct (split_chars s) as [pending done].
  intros H. apply in_map_iff in H as (t & <- & _). exists t. reflexivity.
Qed.

Lemma chars_nonempty (a : Ascii.ascii) (s : string) :
  (0 < length (chars (String a s)))%nat.
Proof.
  unfold chars. simpl. destruct (split_chars s) as [pending done].
  destruct (is_continuation a); simpl; lia.
Qed.

(** On ASCII text a character is a byte. *)
Example chars_ascii :
  chars "no" = [JStr "n"; JStr "o"] /\ py_len (JStr "no") = inr 2.
Proof. split; reflexivity. Qed.

(** A two-byte character (bytes 195 and 169, the encoding of U+00E9)
    counts once. *)
Example chars_two_bytes :
  chars ("a" ++ String (Ascii.ascii_of_nat 195) (String (Ascii.ascii_of_nat 169) ""))%string
  = [JStr "a"; JStr (String (Ascii.ascii_of_nat 195) (String (Ascii.ascii_of_nat 169) ""))] /\
  py_len (JStr ("a" ++ String (Ascii.ascii_of_nat 195)
                         (String (Ascii.ascii_of_nat 169) ""))%string) = inr 2.
Proof. split; reflexivity. Qed.

Lemma seq_getitem_in_range (l : list json) (i : Z) :
  0 <= i < Z.of_nat (length l) ->
  exists x, l !! Z.to_nat i = Some x /\ seq_getitem l i = inr x.
Proof.
  intros Hi. unfold seq_getitem.
  destruct (i <? 0) eqn:E1; [lia |].
  destruct (0 <=? i) eqn:E2; [| lia].
  destruct (i <? Z.of_nat (length l)) eqn:E3; [| lia]. simpl.
  destruct (l !! Z.to_nat i) as [x |] eqn:E4; [eauto |].
  apply lookup_ge_None in E4. lia.
Qed.

Lemma seq_getitem_nonneg (l : list json) (i : Z) (x : json) :
  0 <= i -> seq_getitem l i = inr x ->
  l !! Z.to_nat i = Some x /\ i < Z.of_nat (length l).
Proof.
  intros Hi. unfold seq_getitem.
  destruct (i <? 0) eqn:E1; [lia |].
  destruct ((0 <=? i) && (i <? Z.of_nat (length l))) eqn:E2; [| discriminate].
  apply andb_true_iff in E2 as [_ E2].
  destruct (l !! Z.to_nat i) eqn:E3; [| discriminate].
  intros [= <-]. split; [reflexivity | lia].
Qed.

(** A record the handlers can index: what survives [x[i]] followed by a
    string subscript is an element of a JSON array. *)
Lemma getitem_record (v : json) (i : Z) (q : json) (k : string) (x : json) :
  getitem_int v i = inr q -> getitem_str q k = inr x ->
  exists items members,
    v = JArr items /\ q = JObj members /\ seq_getitem items i = inr q.
Proof.
  intros Hq Hx. destruct q; try discriminate.
  destruct v; simpl in Hq; try discriminate.
  - exfalso. unfold seq_getitem in Hq.
    destruct (_ && _); [| discriminate].
    destruct (chars s !! _) as [y |] eqn:E; [| discriminate].
    injection Hq as ->. apply list_elem_of_lookup_2, list_elem_of_In in E.
    destruct (chars_JStr s _ E) as (t & Ht). discriminate.
  - eauto.
Qed.

(** The terminal branch of [ask_question]. *)
Lemma ask_question_finish (c : Z) (st : state) (s : session) (n : Z) :
  user_states st !! c = Some s ->
  py_len (questions s) = inr n ->
  n <= current_question s ->
  ask_question c st =
    Ret tt {| user_states := delete c (user_states st);
              outbox := outbox st ++ [SendMessage c (Summary (score s) n) None];
              offset := offset st |}.
Proof.
  intros Hs Hn Hle. unfold ask_question, bind, get_state. rewrite Hs.
  cbv zeta. rewrite Hn. simpl.
  destruct (n <=? current_question s) eqn:E; [| lia].
  run. unfold del_state. simpl. rewrite Hs. reflexivity.
Qed.

(** The other branch: the registry is not touched, whatever happens. *)
Lemma ask_question_next (c : Z) (st : state) (s : session) (n : Z) :
  user_states st !! c = Some s ->
  py_len (questions s) = inr n ->
  current_question s < n ->
  (exists e, ask_question c st = Raise e st /\
     (0 <= current_question s -> e <> IndexError)) \/
  (exists q question_text options opts,
     getitem_int (questions s) (current_question s) = inr q /\
     getitem_str q "question" = inr question_text /\
     getitem_str q "options" = inr options /\
     py_iter options = inr opts /\
     ask_question c st =
       Ret tt {| user_states := user_states st;
                 outbox := outbox st ++
                   [SendMessage c (Ask question_text)
                      (Some [map (fun o => Button o o) opts])];
                 offset := offset st |}).
Proof.
  intros Hs Hn Hlt. unfold ask_question, bind, get_state. rewrite Hs.
  cbv zeta. rewrite Hn. simpl.
  destruct (n <=? current_question s) eqn:E; [lia |].
  destruct (getitem_int (questions s) (current_question s)) as [e | q] eqn:Hq.
  { left. exists e. split; [reflexivity |]. intros H0 ->.
    destruct (questions s); simpl in Hq, Hn; try discriminate.
    - injection Hn as <-.
      destruct (seq_getitem_in_range (chars s0) (current_question s)) as (x & _ & Hx).
      + lia.
      + congruence.
    - injection Hn as <-.
      destruct (seq_getitem_in_range items (current_question s)) as (x & _ & Hx);
        [lia | congruence]. }
  simpl.
  destruct (getitem_str q "question") as [e | question_text] eqn:Ht.
  { left. exists e. split; [reflexivity |]. intros _ ->.
    destruct q; simpl in Ht; try discriminate. destruct (assoc _ _); discriminate. }
  simpl.
  destruct (getitem_str q "options") as [e | options] eqn:Ho.
  { left. exists e. split; [reflexivity |]. intros _ ->.
    destruct q; simpl in Ho; try discriminate. destruct (assoc _ _); discriminate. }
  simpl.
  destruct (py_iter options) as [e | opts] eqn:Hi.
  { left. exists e. split; [reflexivity |]. intros _ ->.
    destruct options; simpl in Hi; discriminate. }
  right. exists q, question_text, options, opts.
  repeat split; first [assumption | reflexivity].
Qed.

(** ** One answer *)

Lemma str_eq_iff (answer : string) (v : json) :
  str_eq answer v = true <-> v = JStr answer.
Proof.
  destruct v; simpl; try (split; [discriminate | intros [=]]).
  rewrite String.eqb_eq. split; [intros -> | intros [= ->]]; reflexivity.
Qed.

(** [handle_answer] up to its last line: with a current question that has
    an answer, it acknowledges, notifies, updates the session in place and
    goes on with [ask_question]. *)
Lemma handle_answer_step (c : Z) (answer cbq : string) (st : state)
    (s : session) (q correct_answer : json) :
  user_states st !! c = Some s ->
  getitem_int (questions s) (current_question s) = inr q ->
  getitem_str q "answer" = inr correct_answer ->
  handle_answer c answer cbq st =
    ask_question c
      {| user_states := <[c := answered s answer correct_answer]> (user_states st);
         outbox := outbox st ++
           [AnswerCallbackQuery cbq;
            SendMessage c (if str_eq answer correct_answer then Correct
                           else Incorrect correct_answer) None];
         offset := offset st |}.
Proof.
  intros Hs Hq Ha. unfold handle_answer. run. rewrite Hs. cbv zeta.
  rewrite Hq. simpl. rewrite Ha. simpl. unfold answered.
  destruct (str_eq answer correct_answer); simpl.
  - rewrite (alter_Some _ _ _ _ Hs). simpl.
    erewrite alter_Some by apply lookup_insert_eq. simpl.
    rewrite insert_insert_eq, <- !app_assoc. reflexivity.
  - rewrite (alter_Some _ _ _ _ Hs). simpl.
    rewrite <- !app_assoc. reflexivity.
Qed.

(** When the current question cannot be read, [handle_answer] raises right
    after the acknowledgement, before any update of the session. *)
Lemma handle_answer_raise (c : Z) (answer cbq : string) (st : state)
    (s : session) (e : exn) :
  user_states st !! c = Some s ->
  (getitem_int (questions s) (current_question s) = inl e \/
   exists q, getitem_int (questions s) (current_question s) = inr q /\
             getitem_str q "answer" = inl e) ->
  handle_answer c answer cbq st =
    Raise e {| user_states := user_states st;
               outbox := outbox st ++ [AnswerCallbackQuery cbq];
               offset := offset st |}.
Proof.
  intros Hs H. unfold handle_answer. run. rewrite Hs. cbv zeta.
  destruct H as [Hq | (q & Hq & Ha)]; rewrite Hq; simpl; [reflexivity |].
  rewrite Ha. reflexivity.
Qed.

(** C1. For a session whose current question has an answer field, an answer
    event leaves the session dict with its score raised by exactly 1 when
    the answer string is the correct answer and unchanged otherwise, and
    with [current_question] raised by exactly 1 in both cases.  That dict
    [s'] is then either still the user's entry of [user_states], or it was
    the last question: the entry is gone and the summary just sent reports
    the score of [s'].  Nobody else's session is touched. *)
Theorem handle_answer_scores (c : Z) (answer cbq : string) (st : state)
    (s : session) (q correct_answer : json) :
  user_states st !! c = Some s ->
  getitem_int (questions s) (current_question s) = inr q ->
  getitem_str q "answer" = inr correct_answer ->
  exists s' : session,
    (correct_answer = JStr answer -> score s' = score s + 1) /\
    (correct_answer <> JStr answer -> score s' = score s) /\
    current_question s' = current_question s + 1 /\
    questions s' = questions s /\
    let st' := final (handle_answer c answer cbq st) in
    (user_states st' !! c = Some s' \/
     user_states st' !! c = None /\
     exists n, py_len (questions s) = inr n /\ n <= current_question s' /\
       last (outbox st') = Some (SendMessage c (Summary (score s') n) None)) /\
    (forall c', c' <> c -> user_states st' !! c' = user_states st !! c').
Proof.
  intros Hs Hq Ha. exists (answered s answer correct_answer).
  split; [| split; [| split; [reflexivity | split; [reflexivity |]]]].
  - intros H. apply str_eq_iff in H. unfold answered. simpl. rewrite H. reflexivity.
  - intros H. unfold answered. simpl.
    destruct (str_eq answer correct_answer) eqn:E; [| reflexivity].
    apply str_eq_iff in E. contradiction.
  - cbv zeta. rewrite (handle_answer_step c answer cbq st s q correct_answer Hs Hq Ha).
    destruct (getitem_record _ _ _ _ _ Hq Ha) as (items & members & Hitems & _ & _).
    set (st2 := {| user_states := <[c := answered s answer correct_answer]> (user_states st) |}).
    assert (Hs2 : user_states st2 !! c = Some (answered s answer correct_answer))
      by apply lookup_insert_eq.
    assert (Hn : py_len (questions (answered s answer correct_answer))
                 = inr (Z.of_nat (length items)))
      by (simpl; rewrite Hitems; reflexivity).
    destruct (Z_le_gt_dec (Z.of_nat (length items))
                (current_question (answered s answer correct_answer))) as [Hle | Hgt].
    + rewrite (ask_question_finish c st2 _ _ Hs2 Hn Hle). simpl. split.
      * right. split; [apply lookup_delete_eq |].
        exists (Z.of_nat (length items)). rewrite Hitems. split; [reflexivity |].
        split; [exact Hle |]. apply last_snoc.
      * intros c' Hne. rewrite lookup_delete_ne, lookup_insert_ne by congruence.
        reflexivity.
    + assert (Hlt : current_question (answered s answer correct_answer)
                    < Z.of_nat (length items)) by lia.
      destruct (ask_question_next c st2 _ _ Hs2 Hn Hlt)
        as [(e & -> & _) | (? & ? & ? & ? & _ & _ & _ & _ & ->)]; simpl.
      * split; [left; apply lookup_insert_eq |].
        intros c' Hne. apply lookup_insert_ne. congruence.
      * split; [left; apply lookup_insert_eq |].
        intros c' Hne. apply lookup_insert_ne. congruence.
Qed.

(** ** The session invariant *)

Lemma getitem_str_not_index (v : json) (k : string) :
  getitem_str v k <> inl IndexError.
Proof. destruct v; simpl; try discriminate. destruct (assoc k members); discriminate. Qed.

Lemma truthy_len (v : json) (n : Z) :
  truthy v = true -> py_len v = inr n -> 0 < n.
Proof.
  destruct v; simpl; try discriminate.
  - destruct s as [| a s]; [discriminate |]. intros _ [= <-].
    pose proof (chars_nonempty a s). lia.
  - destruct items; [discriminate |]. intros _ [= <-]. simpl. lia.
  - destruct members; [discriminate |]. intros _ [= <-]. simpl. lia.
Qed.

(** The three ways [start_quiz] can go. *)
Lemma start_quiz_cases (ld : py json) (c : Z) (st : state) :
  (exists e, ld = inl e /\ e <> FileNotFoundError /\ e <> JSONDecodeError /\
             start_quiz ld c st = Raise e st) \/
  (exists qs, get_questions ld st = Ret qs st /\ truthy qs = false /\
     start_quiz ld c st =
       Ret tt {| user_states := user_states st;
                 outbox := outbox st ++ [SendMessage c Unavailable None];
                 offset := offset st |}) \/
  (exists qs, ld = inr qs /\ truthy qs = true /\
     start_quiz ld c st =
       ask_question c
         {| user_states :=
              <[c := {| score := 0; current_question := 0; questions := qs |}]>
                (user_states st);
            outbox := outbox st; offset := offset st |}).
Proof.
  destruct ld as [e | qs].
  - destruct e;
      try (left; eexists; repeat split; [discriminate | discriminate]);
      right; left; exists JNull; repeat split.
  - destruct (truthy qs) eqn:E.
    + right; right. exists qs. repeat split; [exact E |].
      unfold start_quiz, bind. simpl. rewrite E. reflexivity.
    + right; left. exists qs. repeat split; [exact E |].
      unfold start_quiz, bind. simpl. rewrite E. reflexivity.
Qed.

(** What a returning [ask_question] has done. *)
Lemma ask_question_returns (c : Z) (st st' : state) (s : session) (n : Z) :
  user_states st !! c = Some s ->
  py_len (questions s) = inr n ->
  ask_question c st = Ret tt st' ->
  offset st' = offset st /\
  (n <= current_question s /\ user_states st' = delete c (user_states st) \/
   current_question s < n /\ user_states st' = user_states st /\
   exists q k x, getitem_int (questions s) (current_question s) = inr q /\
                 getitem_str q k = inr x).
Proof.
  intros Hs Hn Hret.
  destruct (Z_le_gt_dec n (current_question s)) as [Hle | Hgt].
  - rewrite (ask_question_finish c st s n Hs Hn Hle) in Hret.
    injection Hret as <-. simpl. auto.
  - assert (Hlt : current_question s < n) by lia.
    destruct (ask_question_next c st s n Hs Hn Hlt)
      as [(e & He & _) | (q & t & o & os & Hq & Ht & _ & _ & He)];
      rewrite He in Hret; [discriminate |].
    injection Hret as <-. simpl. split; [reflexivity |]. right.
    split; [exact Hlt |]. split; [reflexivity |]. eauto.
Qed.

(** One returning operation, seen from the registry: every session present
    afterwards is in good shape, and is either the one this very operation
    created, with both counters at 0, or a session that was already there,
    with the same questions and counters that did not decrease. *)
Lemma exec_registry (o : op) (st st' : state) :
  registry_ok (user_states st) ->
  exec o st = Ret tt st' ->
  offset st' = offset st /\
  forall c s', user_states st' !! c = Some s' ->
    session_ok s' /\
    ((exists ld, o = Start ld c /\ ld = inr (questions s') /\
                 current_question s' = 0 /\ score s' = 0) \/
     (exists s, user_states st !! c = Some s /\
                questions s' = questions s /\
                current_question s <= current_question s' /\
                score s <= score s')).
Proof.
  intros Hok Hret. destruct o as [ld c0 | c0 answer cbq]; simpl in Hret.
  - (* start_quiz *)
    destruct (start_quiz_cases ld c0 st)
      as [(e & _ & _ & _ & He) | [(qs & _ & _ & He) | (qs & -> & Ht & He)]];
      rewrite He in Hret.
    + discriminate.
    + injection Hret as <-. simpl. split; [reflexivity |]. intros c s' Hs'.
      split; [exact (Hok c s' Hs') |]. right. exists s'. repeat split; [exact Hs' | lia | lia].
    + set (s0 := {| score := 0; current_question := 0; questions := qs |}) in *.
      set (st1 := {| user_states := <[c0 := s0]> (user_states st) |}) in *.
      assert (Hs1 : user_states st1 !! c0 = Some s0) by apply lookup_insert_eq.
      destruct (py_len qs) as [e | n] eqn:Hn.
      { exfalso. unfold ask_question, bind, get_state in Hret.
        rewrite Hs1 in Hret. cbv zeta in Hret. simpl in Hret.
        rewrite Hn in Hret. discriminate. }
      pose proof (truthy_len qs n Ht Hn) as Hpos.
      destruct (ask_question_returns c0 st1 st' s0 n Hs1 Hn Hret)
        as [Hoff [[Hle _] | (_ & Hreg & q & k & x & Hq & Hx)]];
        [simpl in Hle; lia |].
      split; [exact Hoff |]. intros c s' Hs'. rewrite Hreg in Hs'. simpl in Hs'.
      destruct (decide (c0 = c)) as [<- | Hne].
      * rewrite lookup_insert_eq in Hs'. injection Hs' as <-.
        destruct (getitem_record _ _ _ _ _ Hq Hx) as (items & _ & Hitems & _ & _).
        simpl in Hitems. split.
        -- exists items. simpl. rewrite Hitems in Hn. injection Hn as <-.
           repeat split; [exact Hitems | lia | lia | lia | lia].
        -- left. exists (inr qs). repeat split.
      * rewrite lookup_insert_ne in Hs' by exact Hne.
        split; [exact (Hok c s' Hs') |]. right. exists s'.
        repeat split; [exact Hs' | lia | lia].
  - (* handle_answer *)
    destruct (user_states st !! c0) as [s |] eqn:Hs.
    + destruct (Hok c0 s Hs) as (items & Hitems & Hidx & Hscore).
      destruct (getitem_int (questions s) (current_question s)) as [e | q] eqn:Hq.
      { rewrite (handle_answer_raise c0 answer cbq st s e Hs (or_introl Hq)) in Hret.
        discriminate. }
      destruct (getitem_str q "answer") as [e | ca] eqn:Ha.
      { rewrite (handle_answer_raise c0 answer cbq st s e Hs
                   (or_intror (ex_intro _ q (conj Hq Ha)))) in Hret.
        discriminate. }
      rewrite (handle_answer_step c0 answer cbq st s q ca Hs Hq Ha) in Hret.
      set (s1 := answered s answer ca) in *.
      set (st1 := {| user_states := <[c0 := s1]> (user_states st) |}) in *.
      assert (Hs1 : user_states st1 !! c0 = Some s1) by apply lookup_insert_eq.
      assert (Hn : py_len (questions s1) = inr (Z.of_nat (length items)))
        by (simpl; rewrite Hitems; reflexivity).
      assert (Hsc : score s <= score s1 <= score s + 1)
        by (simpl; destruct (str_eq answer ca); lia).
      assert (Hcq : current_question s1 = current_question s + 1) by reflexivity.
      assert (Hqs : questions s1 = questions s) by reflexivity.
      clearbody s1.
      destruct (ask_question_returns c0 st1 st' s1 _ Hs1 Hn Hret)
        as [Hoff [[_ Hreg] | (Hlt & Hreg & _)]].
      * split; [exact Hoff |]. intros c s' Hs'. rewrite Hreg in Hs'. simpl in Hs'.
        destruct (decide (c0 = c)) as [<- | Hne].
        { rewrite lookup_delete_eq in Hs'. discriminate. }
        rewrite lookup_delete_ne, lookup_insert_ne in Hs' by exact Hne.
        split; [exact (Hok c s' Hs') |]. right. exists s'.
        repeat split; [exact Hs' | lia | lia].
      * split; [exact Hoff |]. intros c s' Hs'. rewrite Hreg in Hs'. simpl in Hs'.
        destruct (decide (c0 = c)) as [<- | Hne].
        { rewrite lookup_insert_eq in Hs'. injection Hs' as <-. split.
          - exists items. rewrite Hqs. repeat split; [exact Hitems | lia | lia | lia | lia].
          - right. exists s. repeat split; [exact Hs | exact Hqs | lia | lia]. }
        rewrite lookup_insert_ne in Hs' by exact Hne.
        split; [exact (Hok c s' Hs') |]. right. exists s'.
        repeat split; [exact Hs' | lia | lia].
    + rewrite (answer_without_session c0 answer cbq st Hs) in Hret.
      injection Hret as <-. simpl. split; [reflexivity |]. intros c s' Hs'.
      split; [exact (Hok c s' Hs') |]. right. exists s'.
      repeat split; [exact Hs' | lia | lia].
Qed.

Lemma exec_ok (o : op) (st st' : state) :
  registry_ok (user_states st) -> exec o st = Ret tt st' ->
  registry_ok (user_states st').
Proof.
  intros Hok Hret c s Hs.
  exact (proj1 (proj2 (exec_registry o st st' Hok Hret) c s Hs)).
Qed.

(** Every session of a reachable state satisfies the invariant. *)
Lemma reachable_ok (st : state) : reachable st -> registry_ok (user_states st).
Proof.
  induction 1 as [| st o _ IH | st c t mk st' _ IH Hsend | st o st' _ IH Hexec].
  - intros c s Hs. simpl in Hs. rewrite lookup_empty in Hs. discriminate.
  - exact IH.
  - injection Hsend as <-. exact IH.
  - exact (exec_ok o st st' IH Hexec).
Qed.

Lemma on_callback_reachable (u : update) (st st' : state) :
  reachable st -> on_callback u st = Ret tt st' -> reachable st'.
Proof.
  unfold on_callback. destruct (callback_query u) as [cb |].
  - apply (reachable_exec st (Answer (from cb) (data cb) (cb_id cb))).
  - intros Hr [= <-]. exact Hr.
Qed.

(** The loop body stays within the reachable states, also between its
    text command and its callback part. *)
Lemma handle_update_reachable (e : env) (u : update) (st st' : state) :
  reachable st -> handle_update e u st = Ret tt st' -> reachable st'.
Proof.
  intros Hr. unfold handle_update, bind, set_offset.
  pose proof (reachable_cursor st (update_id u + 1) Hr) as Hr1.
  set (st1 := {| user_states := user_states st |}) in *. clearbody st1.
  unfold route. destruct (message_data u) as [m |];
    [| apply on_callback_reachable; exact Hr1].
  destruct (stale (now e) (date m)); [intros [= <-]; exact Hr1 |].
  unfold bind.
  destruct (text m) as [t |]; [| apply on_callback_reachable; exact Hr1].
  destruct (String.eqb t "/start").
  { apply on_callback_reachable.
    exact (reachable_send st1 (chat m) Greeting None _ Hr1 eq_refl). }
  destruct (String.eqb t "/quiz"); [| apply on_callback_reachable; exact Hr1].
  destruct (start_quiz (load e) (chat m) st1) as [[] st2 | ] eqn:Hstart; [| discriminate].
  apply on_callback_reachable.
  exact (reachable_exec st1 (Start (load e) (chat m)) st2 Hr1 Hstart).
Qed.

Lemma for_updates_reachable (batch : list (env * update)) (st st' : state) :
  reachable st -> for_updates batch st = Ret tt st' -> reachable st'.
Proof.
  revert st. induction batch as [| [e u] rest IH]; intros st Hr; simpl.
  - intros [= <-]. exact Hr.
  - unfold bind. destruct (handle_update e u st) as [[] st1 |] eqn:Hu; [| discriminate].
    apply IH. exact (handle_update_reachable e u st st1 Hr Hu).
Qed.

(** Whatever the platform delivers, a state of the running [main] loop is
    reachable. *)
Lemma main_reachable (polls : list (list (env * update))) (st' : state) :
  main polls init = Ret tt st' -> reachable st'.
Proof.
  assert (H : forall st, reachable st -> main polls st = Ret tt st' -> reachable st').
  { induction polls as [| batch later IH]; intros st Hr; simpl.
    - intros [= <-]. exact Hr.
    - unfold bind. destruct (for_updates batch st) as [[] st1 |] eqn:Hb; [| discriminate].
      apply IH. exact (for_updates_reachable batch st st1 Hr Hb). }
  exact (H init reachable_init).
Qed.

(** C8. In every state the running process can reach, a session found in
    [user_states] has [current_question] strictly below the length of its
    question list (and not negative), so the subscript
    [state['questions'][question_index]] of the answer handler yields an
    element, and no answer event can end in [IndexError]. *)
Theorem answer_index_in_bounds (st : state) (c : Z) (s : session) :
  reachable st ->
  user_states st !! c = Some s ->
  exists items q,
    questions s = JArr items /\
    0 <= current_question s < Z.of_nat (length items) /\
    getitem_int (questions s) (current_question s) = inr q /\
    forall answer cbq st', handle_answer c answer cbq st <> Raise IndexError st'.
Proof.
  intros Hreach Hs.
  destruct (reachable_ok st Hreach c s Hs) as (items & Hitems & Hidx & Hscore).
  destruct (seq_getitem_in_range items (current_question s) Hidx) as (q & _ & Hq0).
  assert (Hq : getitem_int (questions s) (current_question s) = inr q)
    by (rewrite Hitems; exact Hq0).
  exists items, q. repeat split; [exact Hitems | lia | lia | exact Hq |].
  intros answer cbq st' Hraise.
  destruct (getitem_str q "answer") as [e | ca] eqn:Ha.
  - rewrite (handle_answer_raise c answer cbq st s e Hs
               (or_intror (ex_intro _ q (conj Hq Ha)))) in Hraise.
    injection Hraise as -> _. exact (getitem_str_not_index _ _ Ha).
  - rewrite (handle_answer_step c answer cbq st s q ca Hs Hq Ha) in Hraise.
    set (s1 := answered s answer ca) in *.
    set (st1 := {| user_states := <[c := s1]> (user_states st) |}) in *.
    assert (Hs1 : user_states st1 !! c = Some s1) by apply lookup_insert_eq.
    assert (Hn : py_len (questions s1) = inr (Z.of_nat (length items)))
      by (simpl; rewrite Hitems; reflexivity).
    destruct (Z_le_gt_dec (Z.of_nat (length items)) (current_question s1)) as [Hle | Hgt].
    + rewrite (ask_question_finish c st1 s1 _ Hs1 Hn Hle) in Hraise. discriminate.
    + assert (Hlt : current_question s1 < Z.of_nat (length items)) by lia.
      destruct (ask_question_next c st1 s1 _ Hs1 Hn Hlt)
        as [(e & He & Hne) | (? & ? & ? & ? & _ & _ & _ & _ & He)];
        rewrite He in Hraise; [| discriminate].
      injection Hraise as -> _. apply Hne; [simpl; lia | reflexivity].
Qed.

(** C2, as stated, fails for the entry of a user: a start command that
    loads a list replaces the entry of a user who is in the middle of a
    quiz, so over start, answer, start the user's [current_question] goes
    0, 1, 0 while an entry for the user is in [user_states] all along. *)
Lemma current_question_resets :
  reachable sample_answered /\
  user_states sample_started !! 7 = Some (Session 0 0 (JArr sample_quiz)) /\
  exec (Answer 7 "yes" "cb1") sample_started = Ret tt sample_answered /\
  user_states sample_answered !! 7 = Some (Session 1 1 (JArr sample_quiz)) /\
  exec (Start (inr (JArr sample_quiz)) 7) sample_answered = Ret tt sample_restarted /\
  user_states sample_restarted !! 7 = Some (Session 0 0 (JArr sample_quiz)) /\
  ~ (forall (st st' : state) (o : op) (c : Z) (s s' : session),
       reachable st ->
       exec o st = Ret tt st' ->
       user_states st !! c = Some s ->
       user_states st' !! c = Some s' ->
       current_question s <= current_question s').
Proof.
  assert (Hreach : reachable sample_answered).
  { apply (reachable_exec sample_started (Answer 7 "yes" "cb1")); [| reflexivity].
    apply (handle_update_reachable sample_env
             (Update 1 (Some (Message 7 95 (Some "/quiz"))) None) init sample_started
             reachable_init). reflexivity. }
  split; [exact Hreach |]. repeat (split; [reflexivity |]).
  intros H.
  specialize (H sample_answered sample_restarted (Start (inr (JArr sample_quiz)) 7) 7
                (Session 1 1 (JArr sample_quiz)) (Session 0 0 (JArr sample_quiz))
                Hreach eq_refl eq_refl eq_refl).
  simpl in H. lia.
Qed.

(** C2, amended.  From any reachable state, after a start or answer
    operation that returns, every session in [user_states] has
    [current_question] between 0 and the number of its questions, and it is
    either the session this operation created from a loaded list, whose
    [current_question] is 0, or a session that was in the registry before,
    whose [current_question] has not decreased.  So the counter of a
    user's entry decreases only when a start of that same user loads a list
    and replaces the entry by a new session. *)
Theorem current_question_monotone (st st' : state) (o : op) :
  reachable st ->
  exec o st = Ret tt st' ->
  forall c s', user_states st' !! c = Some s' ->
    (exists items, questions s' = JArr items /\
                   0 <= current_question s' <= Z.of_nat (length items)) /\
    ((exists ld, o = Start ld c /\ ld = inr (questions s') /\
                 current_question s' = 0) \/
     (exists s, user_states st !! c = Some s /\
                questions s' = questions s /\
                current_question s <= current_question s')).
Proof.
  intros Hreach Hret c s' Hs'.
  destruct (exec_registry o st st' (reachable_ok st Hreach) Hret) as [_ H].
  destruct (H c s' Hs') as [(items & Hitems & Hidx & _) Hcase]. split.
  - exists items. split; [exact Hitems | lia].
  - destruct Hcase as [(ld & Ho & Hld & Hz & _) | (s & Hs & Hq & Hle & _)].
    + left. exists ld. auto.
    + right. exists s. auto.
Qed.

(** ** A whole quiz *)

Lemma summaries_app (l1 l2 : list request) :
  summaries (l1 ++ l2) = summaries l1 ++ summaries l2.
Proof.
  induction l1 as [| r l1 IH]; [reflexivity |].
  destruct r as [c [] mk |]; simpl; rewrite IH; reflexivity.
Qed.

Lemma marks_bounds (items : list json) (answers : list string) :
  0 <= marks items answers <= Z.of_nat (length items).
Proof.
  revert answers. induction items as [| q items IH]; intros [| a answers];
    simpl; try lia.
  specialize (IH answers).
  destruct (getitem_str q "answer"); [lia |]. destruct (str_eq a j); lia.
Qed.

Lemma marks_nil (items : list json) : marks items [] = 0.
Proof. destruct items; reflexivity. Qed.

Lemma is_question_inv (q : json) :
  is_question q = true ->
  exists question_text options opts correct_answer,
    getitem_str q "question" = inr question_text /\
    getitem_str q "options" = inr options /\
    py_iter options = inr opts /\
    getitem_str q "answer" = inr correct_answer.
Proof.
  unfold is_question.
  destruct (getitem_str q "question") as [| t]; [discriminate |].
  destruct (getitem_str q "options") as [| o]; [discriminate |].
  destruct (getitem_str q "answer") as [| a]; [discriminate |].
  destruct (py_iter o) as [| os] eqn:E; [discriminate |].
  intros _. exists t, o, os, a. auto.
Qed.

(** The prompt branch of [ask_question] on a well-formed record. *)
Lemma ask_question_deliver (c : Z) (st : state) (s : session)
    (items : list json) (q question_text options : json) (opts : list json) :
  user_states st !! c = Some s ->
  questions s = JArr items ->
  0 <= current_question s ->
  items !! Z.to_nat (current_question s) = Some q ->
  getitem_str q "question" = inr question_text ->
  getitem_str q "options" = inr options ->
  py_iter options = inr opts ->
  ask_question c st =
    Ret tt {| user_states := user_states st;
              outbox := outbox st ++
                [SendMessage c (Ask question_text)
                   (Some [map (fun o => Button o o) opts])];
              offset := offset st |}.
Proof.
  intros Hs Hitems Hge Hq Ht Ho Hi.
  pose proof (lookup_lt_Some _ _ _ Hq) as Hlt.
  assert (Hidx : 0 <= current_question s < Z.of_nat (length items)) by lia.
  destruct (seq_getitem_in_range items _ Hidx) as (x & Hx & Hget).
  assert (x = q) by congruence. subst x.
  unfold ask_question, bind, get_state. rewrite Hs. cbv zeta.
  rewrite Hitems. simpl.
  destruct (Z.of_nat (length items) <=? current_question s) eqn:E; [lia |].
  rewrite Hget. simpl. rewrite Ht. simpl. rewrite Ho. simpl. rewrite Hi.
  reflexivity.
Qed.

Lemma getitem_middle (pre post : list json) (q : json) :
  getitem_int (JArr (pre ++ q :: post)) (Z.of_nat (length pre)) = inr q.
Proof.
  simpl.
  destruct (seq_getitem_in_range (pre ++ q :: post) (Z.of_nat (length pre)))
    as (x & Hx & Hget).
  - rewrite length_app. simpl. lia.
  - rewrite Nat2Z.id, list_lookup_middle in Hx by reflexivity. congruence.
Qed.

(** Answering from question [length pre] on: while answers are fewer than
    the questions left the session stays, with its counters advanced and no
    summary sent; the answer to the last question removes the session and
    sends the one summary. *)
Lemma answer_all_from (c : Z) (answers : list (string * string)) :
  forall (pre post : list json) (st : state) (k : Z),
  post <> [] ->
  forallb is_question post = true ->
  (length answers <= length post)%nat ->
  user_states st !! c =
    Some {| score := k; current_question := Z.of_nat (length pre);
            questions := JArr (pre ++ post) |} ->
  exists st' new,
    answer_all c answers st = Ret tt st' /\
    outbox st' = outbox st ++ new /\
    offset st' = offset st /\
    let k' := k + marks post (map fst answers) in
    if (length answers <? length post)%nat then
      user_states st' =
        <[c := {| score := k';
                  current_question := Z.of_nat (length pre + length answers);
                  questions := JArr (pre ++ post) |}]> (user_states st) /\
      summaries new = []
    else
      user_states st' = delete c (user_states st) /\
      summaries new = [(c, k', Z.of_nat (length (pre ++ post)))].
Proof.
  induction answers as [| [a cbq] rest IH]; intros pre post st k Hne Hwf Hlen Hs.
  - exists st, []. simpl. rewrite app_nil_r, marks_nil, Z.add_0_r, Nat.add_0_r.
    repeat split. destruct post as [| q post]; [contradiction |]. simpl.
    split; [| reflexivity]. symmetry. apply insert_id. exact Hs.
  - destruct post as [| q post]; [contradiction |]. simpl in Hwf, Hlen.
    apply andb_true_iff in Hwf as [Hq Hwf].
    destruct (is_question_inv q Hq) as (t & o & os & ca & _ & _ & _ & Ha).
    pose proof (handle_answer_step c a cbq st _ q ca Hs (getitem_middle pre post q) Ha)
      as Hstep.
    set (s1 := answered _ a ca) in Hstep.
    set (st1 := {| user_states := <[c := s1]> (user_states st) |}) in Hstep.
    assert (Hs1 : user_states st1 !! c = Some s1) by apply lookup_insert_eq.
    simpl. unfold bind. rewrite Hstep, Ha.
    destruct post as [| q' post].
    + (* the last question *)
      destruct rest; [| simpl in Hlen; lia].
      assert (Hn : py_len (questions s1) = inr (Z.of_nat (length (pre ++ [q]))))
        by reflexivity.
      rewrite (ask_question_finish c st1 s1 _ Hs1 Hn)
        by (simpl; rewrite length_app; simpl; lia).
      eexists _, _. split; [reflexivity |]. simpl.
      split; [rewrite <- app_assoc; reflexivity |]. split; [reflexivity |].
      split; [apply delete_insert_eq |].
      destruct (str_eq a ca); simpl; rewrite ?Z.add_0_r; reflexivity.
    + (* more questions follow *)
      simpl in Hwf. apply andb_true_iff in Hwf as [Hq' Hwf].
      destruct (is_question_inv q' Hq') as (t' & o' & os' & ca' & Ht' & Ho' & Hi' & _).
      assert (Hnext : (pre ++ q :: q' :: post) !! Z.to_nat (current_question s1) = Some q').
      { simpl. replace (Z.to_nat (Z.of_nat (length pre) + 1)) with (length (pre ++ [q]))
          by (rewrite length_app; simpl; lia).
        replace (pre ++ q :: q' :: post) with ((pre ++ [q]) ++ q' :: post)
          by (rewrite <- app_assoc; reflexivity).
        apply list_lookup_middle. reflexivity. }
      rewrite (ask_question_deliver c st1 s1 _ q' t' o' os' Hs1 eq_refl
                 ltac:(simpl; lia) Hnext Ht' Ho' Hi').
      set (st2 := {| user_states := user_states st1 |}).
      destruct (IH (pre ++ [q]) (q' :: post) st2 (score s1))
        as (st' & new & Hrun & Hout & Hoff & Hres).
      * discriminate.
      * simpl. rewrite Hq', Hwf. reflexivity.
      * simpl in *. lia.
      * simpl. rewrite lookup_insert_eq. f_equal. unfold s1, answered. simpl.
        rewrite <- app_assoc. simpl. f_equal.
        rewrite length_app. simpl. lia.
      * exists st', (AnswerCallbackQuery cbq ::
                     SendMessage c (if str_eq a ca then Correct else Incorrect ca) None ::
                     SendMessage c (Ask t') (Some [map (fun o => Button o o) os']) :: new).
        split; [exact Hrun |]. split.
        { rewrite Hout. simpl. rewrite <- !app_assoc. reflexivity. }
        split; [rewrite Hoff; reflexivity |].
        assert (Hk : score s1 + marks (q' :: post) (map fst rest)
                     = k + ((if str_eq a ca then 1 else 0)
                            + marks (q' :: post) (map fst rest))).
        { unfold s1, answered. simpl. destruct (str_eq a ca); lia. }
        cbv zeta in Hres. rewrite Hk in Hres.
        assert (Hsum : summaries (AnswerCallbackQuery cbq ::
                     SendMessage c (if str_eq a ca then Correct else Incorrect ca) None ::
                     SendMessage c (Ask t') (Some [map (fun o => Button o o) os']) :: new)
                   = summaries new) by (destruct (str_eq a ca); reflexivity).
        rewrite Hsum. cbv zeta.
        assert (Hpos : Z.of_nat (length (pre ++ [q]) + length rest)
                       = Z.of_nat (length pre + length ((a, cbq) :: rest)))
          by (rewrite length_app; simpl; lia).
        assert (Hall : (pre ++ [q]) ++ q' :: post = pre ++ q :: q' :: post)
          by (rewrite <- app_assoc; reflexivity).
        rewrite Hpos, Hall in Hres.
        change (S (length rest) <? S (length (q' :: post)))%nat
          with (length rest <? length (q' :: post))%nat.
        revert Hres. destruct (length rest <? length (q' :: post))%nat.
        -- intros [Hreg Hnone]. split; [| exact Hnone].
           rewrite Hreg. apply insert_insert_eq.
        -- intros [Hreg Hone]. split; [| exact Hone].
           rewrite Hreg. apply delete_insert_eq.
Qed.

(** A successful start on a list whose first record can be shown. *)
Lemma start_quiz_deliver (q0 : json) (rest : list json)
    (question_text options : json) (opts : list json) (c : Z) (st : state) :
  getitem_str q0 "question" = inr question_text ->
  getitem_str q0 "options" = inr options ->
  py_iter options = inr opts ->
  start_quiz (inr (JArr (q0 :: rest))) c st =
    Ret tt {| user_states :=
                <[c := {| score := 0; current_question := 0;
                          questions := JArr (q0 :: rest) |}]> (user_states st);
              outbox := outbox st ++
                [SendMessage c (Ask question_text)
                   (Some [map (fun o => Button o o) opts])];
              offset := offset st |}.
Proof.
  intros Ht Ho Hi. unfold start_quiz, bind. simpl.
  set (s0 := {| score := 0; current_question := 0; questions := JArr (q0 :: rest) |}).
  set (st1 := {| user_states := <[c := s0]> (user_states st) |}).
  assert (Hs1 : user_states st1 !! c = Some s0) by apply lookup_insert_eq.
  exact (ask_question_deliver c st1 s0 (q0 :: rest) q0 question_text options opts
           Hs1 eq_refl ltac:(simpl; lia) eq_refl Ht Ho Hi).
Qed.

(** C3. A quiz started on [N] question records and followed by [N] answer
    events of that user, right or wrong, returns with the user's session
    removed from [user_states]; among the requests issued meanwhile there
    is exactly one summary message, addressed to the user, reporting [N] as
    the total and as the score the number of matching answers, which is at
    most [N].  After fewer than [N] answers the session is still there and
    no summary has been sent. *)
Theorem quiz_completes (items : list json) (answers : list (string * string))
    (c : Z) (st : state) :
  items <> [] ->
  forallb is_question items = true ->
  length answers = length items ->
  exists st' new sc,
    play items c answers st = Ret tt st' /\
    user_states st' !! c = None /\
    outbox st' = outbox st ++ new /\
    summaries new = [(c, sc, Z.of_nat (length items))] /\
    sc = marks items (map fst answers) /\
    0 <= sc <= Z.of_nat (length items) /\
    forall m, (m < length items)%nat ->
      exists stm newm s,
        play items c (take m answers) st = Ret tt stm /\
        user_states stm !! c = Some s /\
        current_question s = Z.of_nat m /\
        outbox stm = outbox st ++ newm /\
        summaries newm = [].
Proof.
  intros Hne Hwf Hlen.
  destruct items as [| q0 rest]; [contradiction |].
  pose proof Hwf as Hwf0. simpl in Hwf0. apply andb_true_iff in Hwf0 as [Hq0 _].
  destruct (is_question_inv q0 Hq0) as (t & o & os & ca & Ht & Ho & Hi & _).
  pose proof (start_quiz_deliver q0 rest t o os c st Ht Ho Hi) as Hstart.
  set (st1 := {| user_states := <[c := _]> (user_states st) |}) in Hstart.
  assert (Hs1 : user_states st1 !! c =
                Some {| score := 0; current_question := Z.of_nat (length (@nil json));
                        questions := JArr ([] ++ q0 :: rest) |})
    by apply lookup_insert_eq.
  assert (Hplay : forall ans, play (q0 :: rest) c ans st = answer_all c ans st1)
    by (intros ans; unfold play, bind; rewrite Hstart; reflexivity).
  destruct (answer_all_from c answers [] (q0 :: rest) st1 0 Hne Hwf
              ltac:(rewrite Hlen; reflexivity) Hs1)
    as (st' & new & Hrun & Hout & _ & Hres).
  cbv zeta in Hres. rewrite Hlen, Nat.ltb_irrefl in Hres. destruct Hres as [Hreg Hsum].
  exists st', (SendMessage c (Ask t) (Some [map (fun o => Button o o) os]) :: new),
         (marks (q0 :: rest) (map fst answers)).
  split; [rewrite Hplay; exact Hrun |].
  split; [rewrite Hreg; apply lookup_delete_eq |].
  split; [rewrite Hout; simpl; rewrite <- app_assoc; reflexivity |].
  split; [exact Hsum |]. split; [reflexivity |].
  split; [apply marks_bounds |].
  intros m Hm.
  assert (Hlenm : length (take m answers) = m) by (rewrite length_take; lia).
  destruct (answer_all_from c (take m answers) [] (q0 :: rest) st1 0 Hne Hwf
              ltac:(rewrite Hlenm; lia) Hs1)
    as (stm & newm & Hrunm & Houtm & _ & Hresm).
  cbv zeta in Hresm. rewrite Hlenm in Hresm.
  apply Nat.ltb_lt in Hm. rewrite Hm in Hresm. destruct Hresm as [Hregm Hsumm].
  eexists stm, (SendMessage c (Ask t) (Some [map (fun o => Button o o) os]) :: newm), _.
  split; [rewrite Hplay; exact Hrunm |].
  split; [rewrite Hregm; apply lookup_insert_eq |].
  split; [reflexivity |].
  split; [rewrite Houtm; simpl; rewrite <- app_assoc; reflexivity |].
  exact Hsumm.
Qed.

(** C9. For a user who already has a session, a start command whose load
    yields a non-empty list with a first record that can be shown replaces
    that session by a new one with score 0 and [current_question] 0 and
    sends question 0; the outcome is the same whatever the score and the
    position of the replaced session were, and nobody else is affected.
    The dispatcher routes the text [/quiz] to [start_quiz]
    without looking at [user_states]. *)
Theorem restart_overwrites (c : Z) (st : state) (s : session)
    (q0 : json) (rest : list json) (question_text options : json) (opts : list json) :
  user_states st !! c = Some s ->
  getitem_str q0 "question" = inr question_text ->
  getitem_str q0 "options" = inr options ->
  py_iter options = inr opts ->
  exists st',
    start_quiz (inr (JArr (q0 :: rest))) c st = Ret tt st' /\
    user_states st' !! c =
      Some {| score := 0; current_question := 0; questions := JArr (q0 :: rest) |} /\
    (forall c', c' <> c -> user_states st' !! c' = user_states st !! c') /\
    outbox st' = outbox st ++
      [SendMessage c (Ask question_text) (Some [map (fun o => Button o o) opts])] /\
    (forall s2 : session,
       start_quiz (inr (JArr (q0 :: rest))) c
         {| user_states := <[c := s2]> (user_states st);
            outbox := outbox st; offset := offset st |} = Ret tt st') /\
    forall (e : env) (i d : Z),
      stale (now e) d = false ->
      load e = inr (JArr (q0 :: rest)) ->
      handle_update e (Update i (Some (Message c d (Some "/quiz"))) None) st =
        Ret tt {| user_states := user_states st'; outbox := outbox st';
                  offset := Some (i + 1) |}.
Proof.
  intros _ Ht Ho Hi. eexists. split; [exact (start_quiz_deliver q0 rest _ _ _ c st Ht Ho Hi) |].
  simpl. split; [apply lookup_insert_eq |].
  split; [intros c' Hne; apply lookup_insert_ne; congruence |].
  split; [reflexivity |].
  split.
  { intros s2. rewrite (start_quiz_deliver q0 rest _ _ _ c _ Ht Ho Hi). simpl.
    rewrite insert_insert_eq. reflexivity. }
  intros e i d Hfresh Hload. unfold handle_update, route, bind, set_offset. simpl.
  rewrite Hfresh, Hload.
  rewrite (start_quiz_deliver q0 rest _ _ _ c _ Ht Ho Hi). reflexivity.
Qed.

(** ** The update cursor *)

Lemma ask_question_offset (c : Z) (st : state) :
  offset (final (ask_question c st)) = offset st.
Proof.
  destruct (user_states st !! c) as [s |] eqn:Hs.
  - destruct (py_len (questions s)) as [e | n] eqn:Hn.
    { unfold ask_question, bind, get_state. rewrite Hs. cbv zeta.
      rewrite Hn. reflexivity. }
    destruct (Z_le_gt_dec n (current_question s)) as [Hle | Hgt].
    + rewrite (ask_question_finish c st s n Hs Hn Hle). reflexivity.
    + assert (Hlt : current_question s < n) by lia.
      destruct (ask_question_next c st s n Hs Hn Hlt)
        as [(e & -> & _) | (? & ? & ? & ? & _ & _ & _ & _ & ->)]; reflexivity.
  - unfold ask_question, bind, get_state. rewrite Hs. reflexivity.
Qed.

Lemma start_quiz_offset (ld : py json) (c : Z) (st : state) :
  offset (final (start_quiz ld c st)) = offset st.
Proof.
  destruct (start_quiz_cases ld c st)
    as [(e & _ & _ & _ & ->) | [(qs & _ & _ & ->) | (qs & _ & _ & ->)]];
    try reflexivity.
  rewrite ask_question_offset. reflexivity.
Qed.

Lemma handle_answer_offset (c : Z) (answer cbq : string) (st : state) :
  offset (final (handle_answer c answer cbq st)) = offset st.
Proof.
  destruct (user_states st !! c) as [s |] eqn:Hs.
  - destruct (getitem_int (questions s) (current_question s)) as [e | q] eqn:Hq.
    { rewrite (handle_answer_raise c answer cbq st s e Hs (or_introl Hq)). reflexivity. }
    destruct (getitem_str q "answer") as [e | ca] eqn:Ha.
    { rewrite (handle_answer_raise c answer cbq st s e Hs
                 (or_intror (ex_intro _ q (conj Hq Ha)))). reflexivity. }
    rewrite (handle_answer_step c answer cbq st s q ca Hs Hq Ha).
    rewrite ask_question_offset. reflexivity.
  - rewrite (answer_without_session c answer cbq st Hs). reflexivity.
Qed.

Lemma on_callback_offset (u : update) (st : state) :
  offset (final (on_callback u st)) = offset st.
Proof.
  unfold on_callback. destruct (callback_query u); [| reflexivity].
  apply handle_answer_offset.
Qed.

(** No handler assigns the cursor. *)
Lemma route_offset (e : env) (u : update) (st : state) :
  offset (final (route e u st)) = offset st.
Proof.
  unfold route. destruct (message_data u) as [m |]; [| apply on_callback_offset].
  destruct (stale (now e) (date m)); [reflexivity |].
  unfold bind. destruct (text m) as [t |]; [| apply on_callback_offset].
  destruct (String.eqb t "/start");
    [run; rewrite on_callback_offset; reflexivity |].
  destruct (String.eqb t "/quiz"); [| apply on_callback_offset].
  pose proof (start_quiz_offset (load e) (chat m) st) as H.
  destruct (start_quiz (load e) (chat m) st) as [[] st1 | x st1]; simpl in H.
  - rewrite on_callback_offset. exact H.
  - exact H.
Qed.

(** C7, as stated, fails: the cursor follows the identifiers, so a batch
    that carries identifier 5 before identifier 3 moves it from 6 back
    to 4. *)
Lemma cursor_not_monotone :
  for_updates backwards_batch init =
    Ret tt {| user_states := ∅; outbox := []; offset := Some 4 |} /\
  cursors backwards_batch init = [Some 6; Some 4] /\
  ~ increasing (cursors backwards_batch init).
Proof.
  split; [reflexivity |]. split; [reflexivity |].
  intros H. change (increasing [Some 6; Some 4]) in H.
  inversion H as [| a l _ Hall]; subst.
  inversion Hall as [| b l' Hlt _]; subst. simpl in Hlt. lia.
Qed.

Lemma handle_update_offset (e : env) (u : update) (st : state) :
  offset (final (handle_update e u st)) = Some (update_id u + 1).
Proof.
  unfold handle_update, bind, set_offset. rewrite route_offset. reflexivity.
Qed.

Lemma cursors_bound (batch : list (env * update)) (st : state) (x : Z) :
  Forall (fun eu => x < update_id (snd eu) + 1) batch ->
  Forall (cursor_lt (Some x)) (cursors batch st).
Proof.
  revert st. induction batch as [| [e u] rest IH]; intros st Hall; simpl.
  - constructor.
  - inversion Hall as [| ? ? Hx Hrest]; subst. constructor.
    + rewrite handle_update_offset. exact Hx.
    + destruct (returns (handle_update e u st)); [apply IH; exact Hrest | constructor].
Qed.

Lemma cursors_increasing (batch : list (env * update)) (st : state) :
  StronglySorted Z.lt (map (fun eu => update_id (snd eu)) batch) ->
  increasing (cursors batch st).
Proof.
  revert st. induction batch as [| [e u] rest IH]; intros st Hsorted; simpl.
  - constructor.
  - inversion Hsorted as [| ? ? Hrest Hlt]; subst. constructor.
    + destruct (returns (handle_update e u st)); [apply IH; exact Hrest | constructor].
    + rewrite handle_update_offset.
      destruct (returns (handle_update e u st)); [| constructor].
      apply cursors_bound. apply (proj1 (List.Forall_map _ _ _)) in Hlt.
      eapply Forall_impl; [exact Hlt |]. simpl. intros [e' u'] H. simpl in *. lia.
Qed.

(** C7, amended.  For every update the loop body assigns
    [update_id + 1] to the cursor and only then handles the update, in a
    state that already holds the new cursor; no handler changes it, so it
    has this value when the body returns and also when a handler raises.
    Hence, for a batch whose identifiers arrive in increasing order, none
    below the cursor it was fetched with, the successive cursor values are
    strictly increasing. *)
Theorem cursor_advances (batch : list (env * update)) (st : state) :
  StronglySorted Z.lt (map (fun eu => update_id (snd eu)) batch) ->
  (forall x, offset st = Some x -> Forall (fun eu => x <= update_id (snd eu)) batch) ->
  (forall e u st0,
     handle_update e u st0 =
       route e u {| user_states := user_states st0; outbox := outbox st0;
                    offset := Some (update_id u + 1) |} /\
     offset (final (handle_update e u st0)) = Some (update_id u + 1)) /\
  increasing (offset st :: cursors batch st).
Proof.
  intros Hsorted Hfrom. split.
  - intros e u st0. split; [reflexivity | apply handle_update_offset].
  - constructor; [apply cursors_increasing; exact Hsorted |].
    destruct (offset st) as [x |] eqn:Hx.
    + apply cursors_bound. eapply Forall_impl; [exact (Hfrom x eq_refl) |].
      simpl. intros; lia.
    + clear. revert st. induction batch as [| [e u] rest IH]; intros st; simpl.
      * constructor.
      * constructor; [rewrite handle_update_offset; exact I |].
        destruct (returns (handle_update e u st)); [apply IH | constructor].
Qed.

(** ** A sample quiz *)

(** The scenario of the specification: three questions answered correctly,
    incorrectly, correctly give 2 out of 3, one summary, and no session. *)
Example three_question_scenario :
  exists new,
    play sample_quiz 7 [("yes", "cb1"); ("yes", "cb2"); ("yes", "cb3")] init =
      Ret tt {| user_states := ∅; outbox := new; offset := None |} /\
    summaries new = [(7, 2, 3)] /\
    last new = Some (SendMessage 7 (Summary 2 3) None).
Proof. eexists. split; [vm_compute; reflexivity |]. split; reflexivity. Qed.

Lemma handle_answer_scores_witness :
  user_states sample_started !! 7 = Some (Session 0 0 (JArr sample_quiz)) /\
  getitem_int (JArr sample_quiz) 0 = inr (sample_question "Is 2 even?" "yes") /\
  getitem_str (sample_question "Is 2 even?" "yes") "answer" = inr (JStr "yes") /\
  exists s',
    score s' = 1 /\ current_question s' = 1 /\
    user_states (final (handle_answer 7 "yes" "cb1" sample_started)) !! 7 = Some s'.
Proof.
  split; [reflexivity |]. split; [reflexivity |]. split; [reflexivity |].
  destruct (handle_answer_scores 7 "yes" "cb1" sample_started
              (Session 0 0 (JArr sample_quiz))
              (sample_question "Is 2 even?" "yes") (JStr "yes")
              eq_refl eq_refl eq_refl)
    as (s' & Hinc & _ & Hcq & _ & [Hs | [Hnone _]] & _).
  - exists s'. split; [exact (Hinc eq_refl) |]. split; [exact Hcq | exact Hs].
  - vm_compute in Hnone. discriminate.
Defined.

Lemma current_question_monotone_witness :
  reachable sample_started /\
  exec (Answer 7 "yes" "cb1") sample_started = Ret tt sample_answered /\
  user_states sample_answered !! 7 = Some (Session 1 1 (JArr sample_quiz)) /\
  (exists items, JArr sample_quiz = JArr items /\ 0 <= 1 <= Z.of_nat (length items)) /\
  exists s, user_states sample_started !! 7 = Some s /\
            JArr sample_quiz = questions s /\
            current_question s <= 1.
Proof.
  assert (Hreach : reachable sample_started).
  { apply (handle_update_reachable sample_env
             (Update 1 (Some (Message 7 95 (Some "/quiz"))) None) init sample_started
             reachable_init). reflexivity. }
  split; [exact Hreach |]. split; [reflexivity |]. split; [reflexivity |].
  destruct (current_question_monotone sample_started sample_answered
              (Answer 7 "yes" "cb1") Hreach eq_refl
              7 (Session 1 1 (JArr sample_quiz)) eq_refl)
    as [Hbound [(ld & Ho & _) | Hkept]].
  - discriminate Ho.
  - split; [exact Hbound | exact Hkept].
Defined.

Lemma quiz_completes_witness :
  sample_quiz <> [] /\
  forallb is_question sample_quiz = true /\
  length [("yes", "cb1"); ("no", "cb2"); ("no", "cb3")] = length sample_quiz /\
  exists st' new sc,
    play sample_quiz 7 [("yes", "cb1"); ("no", "cb2"); ("no", "cb3")] init = Ret tt st' /\
    user_states st' !! 7 = None /\
    summaries new = [(7, sc, 3)] /\ 0 <= sc <= 3.
Proof.
  split; [discriminate |]. split; [reflexivity |]. split; [reflexivity |].
  destruct (quiz_completes sample_quiz [("yes", "cb1"); ("no", "cb2"); ("no", "cb3")] 7 init
              ltac:(discriminate) eq_refl eq_refl)
    as (st' & new & sc & Hrun & Hgone & _ & Hsum & _ & Hsc & _).
  exists st', new, sc. split; [exact Hrun |]. split; [exact Hgone |].
  split; [exact Hsum | exact Hsc].
Defined.

Lemma answer_index_in_bounds_witness :
  reachable sample_started /\
  user_states sample_started !! 7 = Some (Session 0 0 (JArr sample_quiz)) /\
  exists items q,
    JArr sample_quiz = JArr items /\
    0 <= 0 < Z.of_nat (length items) /\
    getitem_int (JArr sample_quiz) 0 = inr q /\
    forall answer cbq st',
      handle_answer 7 answer cbq sample_started <> Raise IndexError st'.
Proof.
  assert (Hreach : reachable sample_started).
  { apply (handle_update_reachable sample_env
             (Update 1 (Some (Message 7 95 (Some "/quiz"))) None) init sample_started
             reachable_init). reflexivity. }
  split; [exact Hreach |]. split; [reflexivity |].
  exact (answer_index_in_bounds sample_started 7 (Session 0 0 (JArr sample_quiz))
           Hreach eq_refl).
Defined.

Lemma restart_overwrites_witness :
  user_states (final (handle_answer 7 "yes" "cb1" sample_started)) !! 7 =
    Some (Session 1 1 (JArr sample_quiz)) /\
  getitem_str (sample_question "Is 2 even?" "yes") "question" = inr (JStr "Is 2 even?") /\
  getitem_str (sample_question "Is 2 even?" "yes") "options"
    = inr (JArr [JStr "yes"; JStr "no"]) /\
  py_iter (JArr [JStr "yes"; JStr "no"]) = inr [JStr "yes"; JStr "no"] /\
  exists st',
    start_quiz (inr (JArr sample_quiz)) 7
      (final (handle_answer 7 "yes" "cb1" sample_started)) = Ret tt st' /\
    user_states st' !! 7 = Some (Session 0 0 (JArr sample_quiz)).
Proof.
  split; [reflexivity |]. split; [reflexivity |]. split; [reflexivity |].
  split; [reflexivity |].
  destruct (restart_overwrites 7 (final (handle_answer 7 "yes" "cb1" sample_started))
              (Session 1 1 (JArr sample_quiz))
              (sample_question "Is 2 even?" "yes") (tl sample_quiz)
              (JStr "Is 2 even?") (JArr [JStr "yes"; JStr "no"]) [JStr "yes"; JStr "no"]
              eq_refl eq_refl eq_refl eq_refl)
    as (st' & Hrun & Hfresh & _).
  exists st'. split; [exact Hrun | exact Hfresh].
Defined.

Lemma cursor_advances_witness :
  StronglySorted Z.lt (map (fun eu => update_id (snd eu)) sample_batch) /\
  (forall x, offset sample_started = Some x ->
             Forall (fun eu => x <= update_id (snd eu)) sample_batch) /\
  increasing (offset sample_started :: cursors sample_batch sample_started).
Proof.
  assert (Hsorted : StronglySorted Z.lt
            (map (fun eu : env * update => update_id (snd eu)) sample_batch)).
  { simpl. repeat constructor. }
  assert (Hfrom : forall x, offset sample_started = Some x ->
            Forall (fun eu : env * update => x <= update_id (snd eu)) sample_batch).
  { intros x Hx. vm_compute in Hx. injection Hx as <-.
    repeat (constructor; [simpl; lia |]). constructor. }
  split; [exact Hsorted |]. split; [exact Hfrom |].
  exact (proj2 (cursor_advances sample_batch sample_started Hsorted Hfrom)).
Defined.

(** ** Outcomes of the handlers, case by case *)

Lemma getitem_str_kind (v : json) (k : string) (e : exn) :
  getitem_str v k = inl e -> e = KeyError \/ e = TypeError.
Proof.
  destruct v; simpl; try (intros [= <-]; auto).
  destruct (assoc k members); [discriminate | intros [= <-]; auto].
Qed.

(** Every way [ask_question] can end for a user who has a session. *)
Lemma ask_question_shape (c : Z) (st : state) (s : session) :
  user_states st !! c = Some s ->
  (exists n, py_len (questions s) = inr n /\ n <= current_question s /\
     ask_question c st =
       Ret tt {| user_states := delete c (user_states st);
                 outbox := outbox st ++ [SendMessage c (Summary (score s) n) None];
                 offset := offset st |}) \/
  (exists e, (e = KeyError \/ e = TypeError \/ e = IndexError) /\
     ask_question c st = Raise e st) \/
  (exists q question_text options opts,
     getitem_int (questions s) (current_question s) = inr q /\
     getitem_str q "question" = inr question_text /\
     getitem_str q "options" = inr options /\
     py_iter options = inr opts /\
     ask_question c st =
       Ret tt {| user_states := user_states st;
                 outbox := outbox st ++
                   [SendMessage c (Ask question_text)
                      (Some [map (fun o => Button o o) opts])];
                 offset := offset st |}).
Proof.
  intros Hs.
  destruct (py_len (questions s)) as [e | n] eqn:Hn.
  { right; left. exists e. split.
    - destruct (questions s); simpl in Hn; try discriminate;
        injection Hn as <-; auto.
    - unfold ask_question, bind, get_state. rewrite Hs. cbv zeta.
      rewrite Hn. reflexivity. }
  destruct (Z_le_gt_dec n (current_question s)) as [Hle | Hgt].
  { left. exists n. split; [reflexivity |]. split; [exact Hle |].
    exact (ask_question_finish c st s n Hs Hn Hle). }
  right. unfold ask_question, bind, get_state. rewrite Hs. cbv zeta.
  rewrite Hn. simpl.
  destruct (n <=? current_question s) eqn:E; [lia |].
  destruct (getitem_int (questions s) (current_question s)) as [e | q] eqn:Hq.
  { left. exists e. split; [| reflexivity].
    destruct (questions s); simpl in Hq;
      try (injection Hq as <-; auto; fail);
      (unfold seq_getitem in Hq;
       (destruct (_ && _);
        [match type of Hq with context [?l !! ?i] => destruct (l !! i) end |]);
       try discriminate; injection Hq as <-; auto). }
  simpl.
  destruct (getitem_str q "question") as [e | question_text] eqn:Ht.
  { left. exists e. split; [| reflexivity].
    destruct (getitem_str_kind _ _ _ Ht) as [-> | ->]; auto. }
  simpl.
  destruct (getitem_str q "options") as [e | options] eqn:Ho.
  { left. exists e. split; [| reflexivity].
    destruct (getitem_str_kind _ _ _ Ho) as [-> | ->]; auto. }
  simpl.
  destruct (py_iter options) as [e | opts] eqn:Hi.
  { left. exists e. split; [| reflexivity].
    destruct options; simpl in Hi; try discriminate; injection Hi as <-; auto. }
  right. exists q, question_text, options, opts.
  repeat split; first [assumption | reflexivity].
Qed.

Lemma summaries_verdict (c : Z) (cbq : string) (b : bool) (ca : json)
    (out : list request) :
  summaries (AnswerCallbackQuery cbq ::
             SendMessage c (if b then Correct else Incorrect ca) None :: out)
  = summaries out.
Proof. destruct b; reflexivity. Qed.

(** Every way an operation can end, seen from the registry and the outbox:
    nothing stored, the user's entry stored, or the user's entry removed
    after the one summary. *)
Lemma exec_shape (o : op) (st : state) :
  exists new,
    outbox (final (exec o st)) = outbox st ++ new /\
    offset (final (exec o st)) = offset st /\
    ((user_states (final (exec o st)) = user_states st /\ summaries new = []) \/
     (exists s', user_states (final (exec o st))
                 = <[op_user o := s']> (user_states st) /\ summaries new = []) \/
     (exists answer cbq s n sc,
        o = Answer (op_user o) answer cbq /\
        user_states st !! op_user o = Some s /\
        py_len (questions s) = inr n /\
        n <= current_question s + 1 /\
        score s <= sc <= score s + 1 /\
        returns (exec o st) = true /\
        user_states (final (exec o st)) = delete (op_user o) (user_states st) /\
        summaries new = [(op_user o, sc, n)])).
Proof.
  destruct o as [ld c | c answer cbq]; simpl.
  - (* start_quiz *)
    destruct (start_quiz_cases ld c st)
      as [(e & _ & _ & _ & ->) | [(qs & _ & _ & ->) | (qs & _ & Ht & ->)]].
    + exists []. simpl. rewrite app_nil_r. auto.
    + eexists. simpl. split; [reflexivity |]. split; [reflexivity |]. left. auto.
    + set (s0 := {| score := 0; current_question := 0; questions := qs |}).
      set (st1 := {| user_states := <[c := s0]> (user_states st) |}).
      assert (Hs1 : user_states st1 !! c = Some s0) by apply lookup_insert_eq.
      destruct (ask_question_shape c st1 s0 Hs1)
        as [(n & Hn & Hle & _) | [(e & _ & ->) | (? & t & ? & os & _ & _ & _ & _ & ->)]].
      * pose proof (truthy_len qs n Ht Hn). simpl in Hle. lia.
      * exists []. simpl. rewrite app_nil_r. split; [reflexivity |].
        split; [reflexivity |]. right; left. exists s0. auto.
      * eexists. simpl. split; [reflexivity |]. split; [reflexivity |].
        right; left. exists s0. auto.
  - (* handle_answer *)
    destruct (user_states st !! c) as [s |] eqn:Hs.
    2: { rewrite (answer_without_session c answer cbq st Hs). eexists. simpl.
         split; [reflexivity |]. split; [reflexivity |]. left. auto. }
    destruct (getitem_int (questions s) (current_question s)) as [e | q] eqn:Hq.
    { rewrite (handle_answer_raise c answer cbq st s e Hs (or_introl Hq)).
      eexists. simpl. split; [reflexivity |]. split; [reflexivity |]. left. auto. }
    destruct (getitem_str q "answer") as [e | ca] eqn:Ha.
    { rewrite (handle_answer_raise c answer cbq st s e Hs
                 (or_intror (ex_intro _ q (conj Hq Ha)))).
      eexists. simpl. split; [reflexivity |]. split; [reflexivity |]. left. auto. }
    rewrite (handle_answer_step c answer cbq st s q ca Hs Hq Ha).
    set (s1 := answered s answer ca).
    set (st1 := {| user_states := <[c := s1]> (user_states st) |}).
    assert (Hs1 : user_states st1 !! c = Some s1) by apply lookup_insert_eq.
    assert (Hsc : score s <= score s1 <= score s + 1)
      by (simpl; destruct (str_eq answer ca); lia).
    destruct (ask_question_shape c st1 s1 Hs1)
      as [(n & Hn & Hle & ->) | [(e & _ & ->) | (? & t & ? & os & _ & _ & _ & _ & ->)]];
      unfold st1; cbn [final outbox offset user_states returns].
    + exists [AnswerCallbackQuery cbq;
              SendMessage c (if str_eq answer ca then Correct else Incorrect ca) None;
              SendMessage c (Summary (score s1) n) None].
      split; [rewrite <- app_assoc; reflexivity |]. split; [reflexivity |].
      right; right. exists answer, cbq, s, n, (score s1).
      split; [reflexivity |]. split; [reflexivity |]. split; [exact Hn |].
      split; [exact Hle |]. split; [exact Hsc |]. split; [reflexivity |].
      split; [apply delete_insert_eq |].
      rewrite summaries_verdict. reflexivity.
    + exists [AnswerCallbackQuery cbq;
              SendMessage c (if str_eq answer ca then Correct else Incorrect ca) None].
      split; [reflexivity |]. split; [reflexivity |].
      right; left. exists s1. split; [reflexivity |].
      rewrite summaries_verdict. reflexivity.
    + exists [AnswerCallbackQuery cbq;
              SendMessage c (if str_eq answer ca then Correct else Incorrect ca) None;
              SendMessage c (Ask t) (Some [map (fun o => Button o o) os])].
      split; [rewrite <- app_assoc; reflexivity |]. split; [reflexivity |].
      right; left. exists s1. split; [reflexivity |].
      rewrite summaries_verdict. reflexivity.
Qed.

(** ** Further properties of the handlers *)

(** X1. An operation of one user never changes the session of another
    user, whether it returns or raises. *)
Theorem other_users_untouched (o : op) (st : state) (c' : Z) :
  c' <> op_user o ->
  user_states (final (exec o st)) !! c' = user_states st !! c'.
Proof.
  intros Hne.
  destruct (exec_shape o st)
    as (new & _ & _ & [[-> _] | [(s' & -> & _) | (? & ? & ? & ? & ? & _ & _ & _ & _ & _ & _ & -> & _)]]).
  - reflexivity.
  - apply lookup_insert_ne. congruence.
  - apply lookup_delete_ne. congruence.
Qed.

Lemma other_users_untouched_witness :
  8 <> op_user (Answer 7 "no" "cb1") /\
  user_states (final (exec (Answer 7 "no" "cb1")
                        (final (start_quiz (inr (JArr sample_quiz)) 8 sample_started)))) !! 8
  = Some (Session 0 0 (JArr sample_quiz)).
Proof.
  split; [discriminate |].
  rewrite (other_users_untouched (Answer 7 "no" "cb1")
             (final (start_quiz (inr (JArr sample_quiz)) 8 sample_started)) 8
             ltac:(discriminate)).
  reflexivity.
Defined.

(** X2. Whatever happens afterwards (no session, a record that cannot be
    read, a raise while the next question is prepared), the first request of
    [handle_answer] is the acknowledgement of the callback. *)
Theorem answer_acknowledged_first (c : Z) (answer cbq : string) (st : state) :
  exists later,
    outbox (final (handle_answer c answer cbq st))
    = outbox st ++ AnswerCallbackQuery cbq :: later.
Proof.
  destruct (user_states st !! c) as [s |] eqn:Hs.
  2: { rewrite (answer_without_session c answer cbq st Hs). eexists. reflexivity. }
  destruct (getitem_int (questions s) (current_question s)) as [e | q] eqn:Hq.
  { rewrite (handle_answer_raise c answer cbq st s e Hs (or_introl Hq)).
    eexists. reflexivity. }
  destruct (getitem_str q "answer") as [e | ca] eqn:Ha.
  { rewrite (handle_answer_raise c answer cbq st s e Hs
               (or_intror (ex_intro _ q (conj Hq Ha)))).
    eexists. reflexivity. }
  rewrite (handle_answer_step c answer cbq st s q ca Hs Hq Ha).
  set (s1 := answered s answer ca).
  set (st1 := {| user_states := <[c := s1]> (user_states st) |}).
  assert (Hs1 : user_states st1 !! c = Some s1) by apply lookup_insert_eq.
  destruct (ask_question_shape c st1 s1 Hs1)
    as [(n & _ & _ & ->) | [(e & _ & ->) | (? & t & ? & os & _ & _ & _ & _ & ->)]];
    unfold st1; cbn [final outbox]; eexists;
    rewrite <- ?app_assoc; reflexivity.
Qed.

(** X3. Between updates, an entry of [user_states] disappears only through
    the answer to the last question of its list: if a user has a session
    before an operation and none after it, the operation was an answer of
    that user, it returned, and the session stood at the last question. *)
Theorem session_removed_only_when_finished (o : op) (st : state) (c : Z) (s : session) :
  reachable st ->
  user_states st !! c = Some s ->
  user_states (final (exec o st)) !! c = None ->
  exists answer cbq items,
    o = Answer c answer cbq /\
    returns (exec o st) = true /\
    questions s = JArr items /\
    current_question s + 1 = Z.of_nat (length items).
Proof.
  intros Hreach Hs Hgone.
  destruct (reachable_ok st Hreach c s Hs) as (items & Hitems & Hidx & _).
  destruct (exec_shape o st)
    as (new & _ & _ & [[Hreg _] | [(s' & Hreg & _) |
         (a & cbq & s0 & n & sc & Ho & Hs0 & Hn & Hle & _ & Hret & Hreg & _)]]);
    rewrite Hreg in Hgone.
  - congruence.
  - destruct (decide (op_user o = c)) as [<- | Hne].
    + rewrite lookup_insert_eq in Hgone. discriminate.
    + rewrite lookup_insert_ne in Hgone by exact Hne. congruence.
  - destruct (decide (op_user o = c)) as [Heq | Hne].
    + subst c. exists a, cbq, items. split; [exact Ho |]. split; [exact Hret |].
      split; [exact Hitems |].
      assert (s0 = s) by congruence. subst s0.
      rewrite Hitems in Hn. injection Hn as <-. lia.
    + rewrite lookup_delete_ne in Hgone by exact Hne. congruence.
Qed.

Lemma session_removed_only_when_finished_witness :
  reachable sample_at_last /\
  user_states sample_at_last !! 7 = Some (Session 2 2 (JArr sample_quiz)) /\
  user_states (final (exec (Answer 7 "yes" "cb3") sample_at_last)) !! 7 = None /\
  exists answer cbq items,
    Answer 7 "yes" "cb3" = Answer 7 answer cbq /\
    returns (exec (Answer 7 "yes" "cb3") sample_at_last) = true /\
    JArr sample_quiz = JArr items /\
    2 + 1 = Z.of_nat (length items).
Proof.
  assert (Hreach : reachable sample_at_last).
  { apply (reachable_exec
             (final (handle_answer 7 "yes" "cb1" sample_started))
             (Answer 7 "no" "cb2")); [| reflexivity].
    apply (reachable_exec sample_started (Answer 7 "yes" "cb1")); [| reflexivity].
    apply (handle_update_reachable sample_env
             (Update 1 (Some (Message 7 95 (Some "/quiz"))) None) init sample_started
             reachable_init). reflexivity. }
  split; [exact Hreach |]. split; [reflexivity |]. split; [reflexivity |].
  exact (session_removed_only_when_finished (Answer 7 "yes" "cb3") sample_at_last 7
           (Session 2 2 (JArr sample_quiz)) Hreach eq_refl eq_refl).
Defined.

(** ** Invariants of the polling loop *)

Lemma main_loop_main (polls : list fetch) (st : state) :
  main_loop polls st = main (map (fun f => get_result (get_updates f)) polls) st.
Proof.
  revert st. induction polls as [| f later IH]; intros st; [reflexivity |].
  simpl. unfold bind. destruct (for_updates _ st); [apply IH | reflexivity].
Qed.

(** X4. In every state the polling loop reaches, whatever the platform
    delivered, a session's score lies between 0 and the number of questions
    it has answered, which is below the number of questions it holds. *)
Theorem score_within_answered (polls : list fetch) (st : state) (c : Z) (s : session) :
  main_loop polls init = Ret tt st ->
  user_states st !! c = Some s ->
  exists items,
    questions s = JArr items /\
    0 <= score s <= current_question s /\
    current_question s < Z.of_nat (length items).
Proof.
  intros Hrun Hs. rewrite main_loop_main in Hrun.
  destruct (reachable_ok st (main_reachable _ st Hrun) c s Hs)
    as (items & Hitems & Hidx & Hscore).
  exists items. split; [exact Hitems |]. split; [exact Hscore | lia].
Qed.

Lemma score_within_answered_witness :
  main_loop [FetchError;
             Body (Some [(sample_env, Update 1 (Some (Message 7 95 (Some "/quiz"))) None);
                         (sample_env, Update 2 None (Some (Callback "cb1" 7 "yes")))])]
    init
  = Ret tt (final (for_updates
                     [(sample_env, Update 1 (Some (Message 7 95 (Some "/quiz"))) None);
                      (sample_env, Update 2 None (Some (Callback "cb1" 7 "yes")))] init)) /\
  user_states (final (for_updates
                     [(sample_env, Update 1 (Some (Message 7 95 (Some "/quiz"))) None);
                      (sample_env, Update 2 None (Some (Callback "cb1" 7 "yes")))] init)) !! 7
  = Some (Session 1 1 (JArr sample_quiz)) /\
  exists items,
    JArr sample_quiz = JArr items /\ 0 <= 1 <= 1 /\ 1 < Z.of_nat (length items).
Proof.
  split; [reflexivity |]. split; [reflexivity |].
  exact (score_within_answered
           [FetchError;
            Body (Some [(sample_env, Update 1 (Some (Message 7 95 (Some "/quiz"))) None);
                        (sample_env, Update 2 None (Some (Callback "cb1" 7 "yes")))])]
           _ 7 (Session 1 1 (JArr sample_quiz)) eq_refl eq_refl).
Defined.

Lemma exec_summaries (o : op) (st : state) :
  registry_ok (user_states st) ->
  Forall summary_ok (summaries (outbox st)) ->
  Forall summary_ok (summaries (outbox (final (exec o st)))).
Proof.
  intros Hok Hout.
  destruct (exec_shape o st)
    as (new & -> & _ & [[_ Hnew] | [(s' & _ & Hnew) |
         (a & cbq & s & n & sc & _ & Hs & Hn & Hle & Hsc & _ & _ & Hnew)]]);
    rewrite summaries_app, Hnew; apply Forall_app; split; try exact Hout;
    try constructor.
  - destruct (Hok _ s Hs) as (items & Hitems & Hidx & Hscore).
    rewrite Hitems in Hn. injection Hn as <-. unfold summary_ok. simpl. lia.
  - constructor.
Qed.

Lemma on_callback_summaries (u : update) (st : state) :
  reachable st ->
  Forall summary_ok (summaries (outbox st)) ->
  Forall summary_ok (summaries (outbox (final (on_callback u st)))).
Proof.
  intros Hr Hout. unfold on_callback. destruct (callback_query u) as [cb |].
  - exact (exec_summaries (Answer (from cb) (data cb) (cb_id cb)) st
             (reachable_ok st Hr) Hout).
  - exact Hout.
Qed.

Lemma handle_update_summaries (e : env) (u : update) (st : state) :
  reachable st ->
  Forall summary_ok (summaries (outbox st)) ->
  Forall summary_ok (summaries (outbox (final (handle_update e u st)))).
Proof.
  intros Hr Hout. unfold handle_update, bind, set_offset.
  pose proof (reachable_cursor st (update_id u + 1) Hr) as Hr1.
  set (st1 := {| user_states := user_states st |}) in *.
  assert (Hout1 : Forall summary_ok (summaries (outbox st1))) by exact Hout.
  clearbody st1. clear Hr Hout st.
  unfold route. destruct (message_data u) as [m |];
    [| apply on_callback_summaries; assumption].
  destruct (stale (now e) (date m)); [exact Hout1 |].
  unfold bind.
  destruct (text m) as [t |]; [| apply on_callback_summaries; assumption].
  destruct (String.eqb t "/start").
  { apply on_callback_summaries.
    - exact (reachable_send st1 (chat m) Greeting None _ Hr1 eq_refl).
    - simpl. rewrite summaries_app, app_nil_r. exact Hout1. }
  destruct (String.eqb t "/quiz"); [| apply on_callback_summaries; assumption].
  pose proof (exec_summaries (Start (load e) (chat m)) st1
                (reachable_ok st1 Hr1) Hout1) as Hout2. simpl in Hout2.
  destruct (start_quiz (load e) (chat m) st1) as [[] st2 | x st2] eqn:Hstart;
    [| exact Hout2].
  apply on_callback_summaries; [| exact Hout2].
  exact (reachable_exec st1 (Start (load e) (chat m)) st2 Hr1 Hstart).
Qed.

Lemma for_updates_summaries (batch : list (env * update)) (st : state) :
  reachable st ->
  Forall summary_ok (summaries (outbox st)) ->
  Forall summary_ok (summaries (outbox (final (for_updates batch st)))).
Proof.
  revert st. induction batch as [| [e u] rest IH]; intros st Hr Hout; simpl;
    [exact Hout |].
  unfold bind.
  pose proof (handle_update_summaries e u st Hr Hout) as H1.
  destruct (handle_update e u st) as [[] st1 | x st1] eqn:Hu; [| exact H1].
  apply IH; [| exact H1]. exact (handle_update_reachable e u st st1 Hr Hu).
Qed.

(** X5. However far the polling loop gets, and also when a handler has
    raised, every summary message it has sent reports a score between 0
    and the total, and a total of at least one question. *)
Theorem summaries_within_total (polls : list fetch) :
  Forall summary_ok (summaries (outbox (final (main_loop polls init)))).
Proof.
  assert (H : forall st, reachable st ->
            Forall summary_ok (summaries (outbox st)) ->
            Forall summary_ok (summaries (outbox (final (main_loop polls st))))).
  { induction polls as [| f later IH]; intros st Hr Hout; simpl; [exact Hout |].
    unfold bind.
    pose proof (for_updates_summaries (get_result (get_updates f)) st Hr Hout) as H1.
    destruct (for_updates (get_result (get_updates f)) st) as [[] st1 | x st1] eqn:Hb;
      [| exact H1].
    apply IH; [| exact H1].
    exact (for_updates_reachable _ st st1 Hr Hb). }
  apply (H init reachable_init). constructor.
Qed.

(** ** Edge cases of the start command *)

(** How [ask_question] ends right after [start_quiz] has stored a session
    for a truthy value. *)
Lemma ask_first_question (qs : json) (c : Z) (st : state) :
  truthy qs = true ->
  user_states st !! c = Some {| score := 0; current_question := 0; questions := qs |} ->
  (exists e, (e = KeyError \/ e = TypeError) /\ ask_question c st = Raise e st) \/
  (exists items q question_text options opts,
     qs = JArr (q :: items) /\
     getitem_str q "question" = inr question_text /\
     getitem_str q "options" = inr options /\
     py_iter options = inr opts /\
     ask_question c st =
       Ret tt {| user_states := user_states st;
                 outbox := outbox st ++
                   [SendMessage c (Ask question_text)
                      (Some [map (fun o => Button o o) opts])];
                 offset := offset st |}).
Proof.
  intros Ht Hs.
  destruct (ask_question_shape c st _ Hs)
    as [(n & Hn & Hle & _) | [(e & Hkind & He) | (q & t & o & os & Hq & Hqt & Ho & Hi & He)]].
  - pose proof (truthy_len qs n Ht Hn). simpl in Hle. lia.
  - left. exists e. split; [| exact He].
    destruct Hkind as [-> | [-> | ->]]; auto. exfalso.
    destruct (py_len qs) as [e | n] eqn:Hn.
    + unfold ask_question, bind, get_state in He. rewrite Hs in He. cbv zeta in He.
      simpl in He. rewrite Hn in He. simpl in He.
      destruct qs; simpl in Hn; discriminate || (injection Hn as <-; discriminate).
    + pose proof (truthy_len qs n Ht Hn) as Hpos.
      destruct (ask_question_next c st _ n Hs Hn Hpos)
        as [(e' & He' & Hne) | (? & ? & ? & ? & _ & _ & _ & _ & He')];
        rewrite He' in He; [| discriminate].
      injection He as ->. apply Hne; [simpl; lia | reflexivity].
  - right. simpl in Hq.
    destruct (getitem_record _ _ _ _ _ Hq Hqt) as (items & _ & -> & _ & Hget).
    destruct (seq_getitem_nonneg items 0 q ltac:(lia) Hget) as [Hlook _].
    destruct items as [| q0 items]; [discriminate |]. injection Hlook as ->.
    exists items, q, t, o, os. auto.
Qed.

Lemma start_quiz_stores (qs : json) (c : Z) (st : state) :
  truthy qs = true ->
  start_quiz (inr qs) c st =
    ask_question c
      {| user_states :=
           <[c := {| score := 0; current_question := 0; questions := qs |}]>
             (user_states st);
         outbox := outbox st; offset := offset st |}.
Proof. intros Ht. unfold start_quiz, bind. simpl. rewrite Ht. reflexivity. Qed.

(** X6. Every value that Python takes for false ([null], [false], [0], the
    empty string, list or object) is handled like a load error: one
    "unavailable" message, no session stored, normal return. *)
Theorem start_quiz_falsy (v : json) (c : Z) (st : state) :
  truthy v = false ->
  start_quiz (inr v) c st =
    Ret tt {| user_states := user_states st;
              outbox := outbox st ++ [SendMessage c Unavailable None];
              offset := offset st |}.
Proof. intros Hv. unfold start_quiz, bind. simpl. rewrite Hv. reflexivity. Qed.

Lemma start_quiz_falsy_witness :
  truthy (JObj []) = false /\
  start_quiz (inr (JObj [])) 7 sample_started =
    Ret tt {| user_states := user_states sample_started;
              outbox := outbox sample_started ++ [SendMessage 7 Unavailable None];
              offset := offset sample_started |}.
Proof.
  split; [reflexivity |].
  exact (start_quiz_falsy (JObj []) 7 sample_started eq_refl).
Defined.

(** X7. An exception of the file read other than the two that
    [get_questions] catches leaves the start command as it came: nothing is
    sent and nothing stored, and the loop ends at this update, with the
    cursor already past it and the rest of the batch not handled. *)
Theorem start_quiz_uncaught (x : exn) (c : Z) (st : state)
    (e : env) (i d : Z) (rest : list (env * update)) :
  x <> FileNotFoundError ->
  x <> JSONDecodeError ->
  stale (now e) d = false ->
  load e = inl x ->
  start_quiz (inl x) c st = Raise x st /\
  for_updates ((e, Update i (Some (Message c d (Some "/quiz"))) None) :: rest) st =
    Raise x {| user_states := user_states st; outbox := outbox st;
               offset := Some (i + 1) |}.
Proof.
  intros H1 H2 Hfresh Hload.
  assert (Hraise : forall st0, start_quiz (inl x) c st0 = Raise x st0)
    by (intros st0; destruct x; try reflexivity; contradiction).
  split; [apply Hraise |].
  simpl. unfold handle_update, route, bind, set_offset. simpl.
  rewrite Hfresh, Hload, Hraise. reflexivity.
Qed.

Lemma start_quiz_uncaught_witness :
  PermissionError <> FileNotFoundError /\
  PermissionError <> JSONDecodeError /\
  stale 100 95 = false /\
  start_quiz (inl PermissionError) 7 sample_started = Raise PermissionError sample_started /\
  for_updates [(Env 100 (inl PermissionError),
                Update 4 (Some (Message 7 95 (Some "/quiz"))) None);
               (Env 100 (inl PermissionError),
                Update 5 (Some (Message 8 95 (Some "/start"))) None)] sample_started =
    Raise PermissionError
      {| user_states := user_states sample_started; outbox := outbox sample_started;
         offset := Some 5 |}.
Proof.
  split; [discriminate |]. split; [discriminate |]. split; [reflexivity |].
  exact (start_quiz_uncaught PermissionError 7 sample_started
           (Env 100 (inl PermissionError)) 4 95
           [(Env 100 (inl PermissionError),
             Update 5 (Some (Message 8 95 (Some "/start"))) None)]
           ltac:(discriminate) ltac:(discriminate) eq_refl eq_refl).
Defined.

(** X8. For a loaded value that Python takes for true, [start_quiz] first
    stores the new session and then either returns, having sent exactly the
    first question of a non-empty list, or raises [KeyError] or [TypeError]
    with nothing sent; in the second case the stored session stays behind.
    It never ends in [IndexError]. *)
Theorem start_quiz_truthy_outcomes (qs : json) (c : Z) (st : state) :
  truthy qs = true ->
  let stored := <[c := {| score := 0; current_question := 0; questions := qs |}]>
                  (user_states st) in
  (exists items q question_text options opts,
     qs = JArr (q :: items) /\
     getitem_str q "question" = inr question_text /\
     getitem_str q "options" = inr options /\
     py_iter options = inr opts /\
     start_quiz (inr qs) c st =
       Ret tt {| user_states := stored;
                 outbox := outbox st ++
                   [SendMessage c (Ask question_text)
                      (Some [map (fun o => Button o o) opts])];
                 offset := offset st |}) \/
  (exists e, (e = KeyError \/ e = TypeError) /\
     start_quiz (inr qs) c st =
       Raise e {| user_states := stored; outbox := outbox st; offset := offset st |}).
Proof.
  intros Ht stored. subst stored. rewrite (start_quiz_stores qs c st Ht).
  set (st1 := {| user_states := <[c := _]> (user_states st) |}).
  assert (Hs1 : user_states st1 !! c =
                Some {| score := 0; current_question := 0; questions := qs |})
    by apply lookup_insert_eq.
  destruct (ask_first_question qs c st1 Ht Hs1)
    as [(e & Hkind & ->) | (items & q & t & o & os & Hqs & Hqt & Ho & Hi & ->)].
  - right. exists e. auto.
  - left. exists items, q, t, o, os. auto.
Qed.

Lemma start_quiz_truthy_outcomes_witness :
  truthy (JArr [JNull]) = true /\
  ((exists items q question_text options opts,
     JArr [JNull] = JArr (q :: items) /\
     getitem_str q "question" = inr question_text /\
     getitem_str q "options" = inr options /\
     py_iter options = inr opts /\
     start_quiz (inr (JArr [JNull])) 7 init =
       Ret tt {| user_states := <[7 := Session 0 0 (JArr [JNull])]> ∅;
                 outbox := [] ++
                   [SendMessage 7 (Ask question_text)
                      (Some [map (fun o => Button o o) opts])];
                 offset := None |}) \/
   (exists e, (e = KeyError \/ e = TypeError) /\
     start_quiz (inr (JArr [JNull])) 7 init =
       Raise e {| user_states := <[7 := Session 0 0 (JArr [JNull])]> ∅;
                  outbox := []; offset := None |})).
Proof.
  split; [reflexivity |].
  exact (start_quiz_truthy_outcomes (JArr [JNull]) 7 init eq_refl).
Defined.

(** X9. A file that parses to something other than a list (a number, a
    string, an object, [true]) never starts a quiz: either the value is
    false for Python and the user is told the game is unavailable, or the
    start command raises. *)
Theorem start_quiz_needs_a_list (v : json) (c : Z) (st : state) :
  (forall items, v <> JArr items) ->
  (truthy v = false /\
   start_quiz (inr v) c st =
     Ret tt {| user_states := user_states st;
               outbox := outbox st ++ [SendMessage c Unavailable None];
               offset := offset st |}) \/
  (truthy v = true /\ returns (start_quiz (inr v) c st) = false).
Proof.
  intros Hnot. destruct (truthy v) eqn:Ht.
  - right. split; [reflexivity |]. rewrite (start_quiz_stores v c st Ht).
    set (st1 := {| user_states := <[c := _]> (user_states st) |}).
    assert (Hs1 : user_states st1 !! c =
                  Some {| score := 0; current_question := 0; questions := v |})
      by apply lookup_insert_eq.
    destruct (ask_first_question v c st1 Ht Hs1)
      as [(e & _ & ->) | (items & q & _ & _ & _ & Hv & _)]; [reflexivity |].
    exfalso. exact (Hnot _ Hv).
  - left. split; [reflexivity |]. unfold start_quiz, bind. simpl. rewrite Ht.
    reflexivity.
Qed.

Lemma start_quiz_needs_a_list_witness :
  (forall items, JObj [("question", JStr "Is 2 even?")] <> JArr items) /\
  returns (start_quiz (inr (JObj [("question", JStr "Is 2 even?")])) 7 init) = false.
Proof.
  split; [discriminate |].
  destruct (start_quiz_needs_a_list (JObj [("question", JStr "Is 2 even?")]) 7 init
              ltac:(discriminate)) as [[Hf _] | [_ Hr]].
  - discriminate Hf.
  - exact Hr.
Defined.

(** ** Edge cases of the answer handler *)

(** X10. When the current question record has no ["answer"] key, the
    answer handler raises [KeyError] right after the acknowledgement: the
    user gets no verdict and the session keeps its score and position. *)
Theorem answer_missing_key (c : Z) (answer cbq : string) (st : state)
    (s : session) (items : list json) (members : list (string * json)) :
  user_states st !! c = Some s ->
  questions s = JArr items ->
  0 <= current_question s ->
  items !! Z.to_nat (current_question s) = Some (JObj members) ->
  assoc "answer" members = None ->
  handle_answer c answer cbq st =
    Raise KeyError {| user_states := user_states st;
                      outbox := outbox st ++ [AnswerCallbackQuery cbq];
                      offset := offset st |}.
Proof.
  intros Hs Hitems Hge Hq Hno.
  pose proof (lookup_lt_Some _ _ _ Hq) as Hlt.
  destruct (seq_getitem_in_range items (current_question s) ltac:(lia))
    as (x & Hx & Hget).
  assert (x = JObj members) by congruence. subst x.
  apply (handle_answer_raise c answer cbq st s KeyError Hs). right.
  exists (JObj members). split; [rewrite Hitems; exact Hget |].
  simpl. rewrite Hno. reflexivity.
Qed.

Lemma answer_missing_key_witness :
  handle_answer 7 "yes" "cb1"
    {| user_states := {[ 7 := Session 0 0 (JArr [JObj [("question", JStr "Is 2 even?")]]) ]};
       outbox := []; offset := Some 2 |} =
    Raise KeyError
      {| user_states := {[ 7 := Session 0 0 (JArr [JObj [("question", JStr "Is 2 even?")]]) ]};
         outbox := [AnswerCallbackQuery "cb1"]; offset := Some 2 |}.
Proof.
  exact (answer_missing_key 7 "yes" "cb1"
           {| user_states :=
                {[ 7 := Session 0 0 (JArr [JObj [("question", JStr "Is 2 even?")]]) ]};
              outbox := []; offset := Some 2 |}
           (Session 0 0 (JArr [JObj [("question", JStr "Is 2 even?")]]))
           [JObj [("question", JStr "Is 2 even?")]]
           [("question", JStr "Is 2 even?")]
           eq_refl eq_refl ltac:(simpl; lia) eq_refl eq_refl).
Defined.

(** X11. An answer to a question that is not the last one produces
    exactly three requests, in this order: the acknowledgement, the verdict
    ("correct", or "incorrect" with the stored answer revealed), and the
    next question with one button per option, each button carrying its
    option both as label and as callback data. *)
Theorem answer_transcript (c : Z) (answer cbq : string) (st : state) (s : session)
    (items : list json) (q correct_answer q' question_text options : json)
    (opts : list json) :
  user_states st !! c = Some s ->
  questions s = JArr items ->
  0 <= current_question s ->
  items !! Z.to_nat (current_question s) = Some q ->
  getitem_str q "answer" = inr correct_answer ->
  items !! Z.to_nat (current_question s + 1) = Some q' ->
  getitem_str q' "question" = inr question_text ->
  getitem_str q' "options" = inr options ->
  py_iter options = inr opts ->
  handle_answer c answer cbq st =
    Ret tt
      {| user_states :=
           <[c := {| score := if str_eq answer correct_answer
                              then score s + 1 else score s;
                     current_question := current_question s + 1;
                     questions := questions s |}]> (user_states st);
         outbox := outbox st ++
           [AnswerCallbackQuery cbq;
            SendMessage c (if str_eq answer correct_answer then Correct
                           else Incorrect correct_answer) None;
            SendMessage c (Ask question_text)
              (Some [map (fun o => Button o o) opts])];
         offset := offset st |}.
Proof.
  intros Hs Hitems Hge Hq Ha Hq' Ht Ho Hi.
  pose proof (lookup_lt_Some _ _ _ Hq) as Hlt.
  destruct (seq_getitem_in_range items (current_question s) ltac:(lia))
    as (x & Hx & Hget).
  assert (x = q) by congruence. subst x.
  rewrite (handle_answer_step c answer cbq st s q correct_answer Hs
             ltac:(rewrite Hitems; exact Hget) Ha).
  set (s1 := answered s answer correct_answer).
  set (st1 := {| user_states := <[c := s1]> (user_states st) |}).
  assert (Hs1 : user_states st1 !! c = Some s1) by apply lookup_insert_eq.
  rewrite (ask_question_deliver c st1 s1 items q' question_text options opts
             Hs1 Hitems ltac:(simpl; lia) Hq' Ht Ho Hi).
  unfold st1. simpl. rewrite <- app_assoc. reflexivity.
Qed.

Lemma answer_transcript_witness :
  handle_answer 7 "yes" "cb2" (final (handle_answer 7 "yes" "cb1" sample_started)) =
    Ret tt
      {| user_states := {[ 7 := Session 1 2 (JArr sample_quiz) ]};
         outbox := outbox (final (handle_answer 7 "yes" "cb1" sample_started)) ++
           [AnswerCallbackQuery "cb2";
            SendMessage 7 (Incorrect (JStr "no")) None;
            SendMessage 7 (Ask (JStr "Is 4 even?"))
              (Some [[Button (JStr "yes") (JStr "yes"); Button (JStr "no") (JStr "no")]])];
         offset := Some 2 |}.
Proof.
  exact (answer_transcript 7 "yes" "cb2"
           (final (handle_answer 7 "yes" "cb1" sample_started))
           (Session 1 1 (JArr sample_quiz)) sample_quiz
           (sample_question "Is 3 even?" "no") (JStr "no")
           (sample_question "Is 4 even?" "yes") (JStr "Is 4 even?")
           (JArr [JStr "yes"; JStr "no"]) [JStr "yes"; JStr "no"]
           eq_refl eq_refl ltac:(simpl; lia) eq_refl eq_refl eq_refl eq_refl eq_refl
           eq_refl).
Defined.

(** X12. A button pressed after the quiz is over (all [N] questions
    answered) is acknowledged and answered with the "game over" prompt; no
    session comes back and no second summary is sent. *)
Theorem late_answer_after_quiz (items : list json) (answers : list (string * string))
    (c : Z) (answer cbq : string) (st : state) :
  items <> [] ->
  forallb is_question items = true ->
  length answers = length items ->
  exists st' new,
    (play items c answers ;; handle_answer c answer cbq) st = Ret tt st' /\
    user_states st' !! c = None /\
    outbox st' = outbox st ++ new ++
                 [AnswerCallbackQuery cbq; SendMessage c GameOver None] /\
    summaries (new ++ [AnswerCallbackQuery cbq; SendMessage c GameOver None])
    = [(c, marks items (map fst answers), Z.of_nat (length items))].
Proof.
  intros Hne Hwf Hlen.
  destruct items as [| q0 rest]; [contradiction |].
  pose proof Hwf as Hwf0. simpl in Hwf0. apply andb_true_iff in Hwf0 as [Hq0 _].
  destruct (is_question_inv q0 Hq0) as (t & o & os & ca & Ht & Ho & Hi & _).
  pose proof (start_quiz_deliver q0 rest t o os c st Ht Ho Hi) as Hstart.
  set (st1 := {| user_states := <[c := _]> (user_states st) |}) in Hstart.
  assert (Hs1 : user_states st1 !! c =
                Some {| score := 0; current_question := Z.of_nat (length (@nil json));
                        questions := JArr ([] ++ q0 :: rest) |})
    by apply lookup_insert_eq.
  destruct (answer_all_from c answers [] (q0 :: rest) st1 0 Hne Hwf
              ltac:(rewrite Hlen; reflexivity) Hs1)
    as (st2 & new & Hrun & Hout & Hoff & Hres).
  cbv zeta in Hres. rewrite Hlen, Nat.ltb_irrefl in Hres. destruct Hres as [Hreg Hsum].
  assert (Hgone : user_states st2 !! c = None)
    by (rewrite Hreg; apply lookup_delete_eq).
  eexists _, (SendMessage c (Ask t) (Some [map (fun o => Button o o) os]) :: new).
  split.
  { unfold play, bind. rewrite Hstart, Hrun.
    exact (answer_without_session c answer cbq st2 Hgone). }
  simpl. split; [exact Hgone |]. split.
  - rewrite Hout. simpl. rewrite <- !app_assoc. reflexivity.
  - rewrite summaries_app, Hsum. reflexivity.
Qed.

Lemma late_answer_after_quiz_witness :
  sample_quiz <> [] /\
  forallb is_question sample_quiz = true /\
  length [("yes", "cb1"); ("yes", "cb2"); ("yes", "cb3")] = length sample_quiz /\
  exists st',
    (play sample_quiz 7 [("yes", "cb1"); ("yes", "cb2"); ("yes", "cb3")] ;;
     handle_answer 7 "yes" "cb4") init = Ret tt st' /\
    user_states st' !! 7 = None /\
    last (outbox st') = Some (SendMessage 7 GameOver None).
Proof.
  split; [discriminate |]. split; [reflexivity |]. split; [reflexivity |].
  destruct (late_answer_after_quiz sample_quiz
              [("yes", "cb1"); ("yes", "cb2"); ("yes", "cb3")] 7 "yes" "cb4" init
              ltac:(discriminate) eq_refl eq_refl)
    as (st' & new & Hrun & Hgone & Hout & _).
  exists st'. split; [exact Hrun |]. split; [exact Hgone |].
  rewrite Hout. simpl.
  change [AnswerCallbackQuery "cb4"; SendMessage 7 GameOver None]
    with ([AnswerCallbackQuery "cb4"] ++ [SendMessage 7 GameOver None]).
  rewrite app_assoc. apply last_snoc.
Defined.

(** ** Routing, batches and polls *)

(** X13. Text that is neither [/start] nor [/quiz], compared exactly
    (case and blanks count), is ignored whatever its date: nothing is sent
    and no session changes; only the cursor moves. *)
Theorem unknown_text_ignored (e : env) (i c d : Z) (t : string) (st : state) :
  t <> "/start" ->
  t <> "/quiz" ->
  handle_update e (Update i (Some (Message c d (Some t))) None) st =
    Ret tt {| user_states := user_states st; outbox := outbox st;
              offset := Some (i + 1) |}.
Proof.
  intros H1 H2. apply String.eqb_neq in H1, H2.
  unfold handle_update, route, bind, set_offset. simpl.
  destruct (stale (now e) d); [reflexivity |]. rewrite H1, H2. reflexivity.
Qed.

Lemma unknown_text_ignored_witness :
  "/Quiz" <> "/start" /\ "/Quiz" <> "/quiz" /\
  handle_update sample_env (Update 4 (Some (Message 7 95 (Some "/Quiz"))) None)
    sample_started =
    Ret tt {| user_states := user_states sample_started;
              outbox := outbox sample_started; offset := Some 5 |}.
Proof.
  split; [discriminate |]. split; [discriminate |].
  exact (unknown_text_ignored sample_env 4 7 95 "/Quiz" sample_started
           ltac:(discriminate) ltac:(discriminate)).
Defined.

(** X14. A [/start] message that is at most 10 seconds old, the boundary
    included, is answered with the greeting and nothing else: a quiz in
    progress keeps its session, unlike with [/quiz]. *)
Theorem start_command_greets (e : env) (i c d : Z) (st : state) :
  (now e - 10 <= inject_Z d)%Q ->
  handle_update e (Update i (Some (Message c d (Some "/start"))) None) st =
    Ret tt {| user_states := user_states st;
              outbox := outbox st ++ [SendMessage c Greeting None];
              offset := Some (i + 1) |}.
Proof.
  intros Hfresh.
  assert (Hs : stale (now e) d = false).
  { destruct (stale (now e) d) eqn:E; [| reflexivity].
    apply stale_iff in E. exfalso. exact (Qlt_not_le _ _ E Hfresh). }
  unfold handle_update, route, bind, set_offset. simpl. rewrite Hs. reflexivity.
Qed.

Lemma start_command_greets_witness :
  (now sample_env - 10 <= inject_Z 90)%Q /\
  handle_update sample_env (Update 4 (Some (Message 7 90 (Some "/start"))) None)
    sample_started =
    Ret tt {| user_states := user_states sample_started;
              outbox := outbox sample_started ++ [SendMessage 7 Greeting None];
              offset := Some 5 |}.
Proof.
  split; [discriminate |].
  exact (start_command_greets sample_env 4 7 90 sample_started ltac:(discriminate)).
Defined.

(** X15. Button presses are not filtered by age.  In a process without
    sessions (for instance right after a restart) a batch of updates
    without messages is handled to its end, and every press in it is
    acknowledged and answered with the "game over" prompt; no session
    appears. *)
Theorem backlog_of_presses (batch : list (env * update)) (st : state) :
  user_states st = ∅ ->
  Forall (fun eu => message_data (snd eu) = None) batch ->
  exists st',
    for_updates batch st = Ret tt st' /\
    user_states st' = ∅ /\
    outbox st' = outbox st ++
      flat_map (fun eu =>
                  match callback_query (snd eu) with
                  | Some cb => [AnswerCallbackQuery (cb_id cb);
                                SendMessage (from cb) GameOver None]
                  | None => []
                  end) batch.
Proof.
  revert st. induction batch as [| [e u] rest IH]; intros st Hempty Hall.
  - exists st. simpl. rewrite app_nil_r. auto.
  - inversion Hall as [| ? ? Hmsg Hrest]; subst. simpl in Hmsg.
    simpl. unfold bind at 1. unfold handle_update, route, bind, set_offset.
    rewrite Hmsg. unfold on_callback.
    destruct (callback_query u) as [cb |].
    + rewrite answer_without_session by (simpl; rewrite Hempty; apply lookup_empty).
      simpl.
      match goal with
      | |- context [for_updates rest ?s] =>
          destruct (IH s) as (st' & Hrun & Hreg & Hout);
            [exact Hempty | exact Hrest |]
      end.
      exists st'. split; [exact Hrun |]. split; [exact Hreg |].
      rewrite Hout. simpl. rewrite <- app_assoc. reflexivity.
    + simpl.
      match goal with
      | |- context [for_updates rest ?s] =>
          destruct (IH s) as (st' & Hrun & Hreg & Hout);
            [exact Hempty | exact Hrest |]
      end.
      exists st'. split; [exact Hrun |]. split; [exact Hreg |]. exact Hout.
Qed.

Lemma backlog_of_presses_witness :
  user_states init = ∅ /\
  Forall (fun eu : env * update => message_data (snd eu) = None)
    [(Env 100000 (inl FileNotFoundError), Update 8 None (Some (Callback "cb1" 7 "yes")));
     (Env 100000 (inl FileNotFoundError), Update 9 None (Some (Callback "cb2" 8 "no")))] /\
  exists st',
    for_updates
      [(Env 100000 (inl FileNotFoundError), Update 8 None (Some (Callback "cb1" 7 "yes")));
       (Env 100000 (inl FileNotFoundError), Update 9 None (Some (Callback "cb2" 8 "no")))]
      init = Ret tt st' /\
    user_states st' = ∅ /\
    outbox st' = [AnswerCallbackQuery "cb1"; SendMessage 7 GameOver None;
                  AnswerCallbackQuery "cb2"; SendMessage 8 GameOver None].
Proof.
  assert (Hall : Forall (fun eu : env * update => message_data (snd eu) = None)
    [(Env 100000 (inl FileNotFoundError), Update 8 None (Some (Callback "cb1" 7 "yes")));
     (Env 100000 (inl FileNotFoundError), Update 9 None (Some (Callback "cb2" 8 "no")))])
    by (repeat constructor).
  split; [reflexivity |]. split; [exact Hall |].
  exact (backlog_of_presses _ init eq_refl Hall).
Defined.

Lemma for_updates_app (b1 b2 : list (env * update)) (st : state) :
  for_updates (b1 ++ b2) st =
    match for_updates b1 st with
    | Ret _ st1 => for_updates b2 st1
    | Raise x st1 => Raise x st1
    end.
Proof.
  revert st. induction b1 as [| [e u] b1 IH]; intros st; [reflexivity |].
  simpl. unfold bind. destruct (handle_update e u st); [apply IH | reflexivity].
Qed.

(** X16. Nothing catches an exception of a handler: the batch ends at the
    update that raised, with the cursor already past that update, and the
    updates behind it are not handled. *)
Theorem batch_stops_at_raise (b1 b2 : list (env * update)) (e : env) (u : update)
    (st st1 st2 : state) (x : exn) :
  for_updates b1 st = Ret tt st1 ->
  handle_update e u st1 = Raise x st2 ->
  for_updates (b1 ++ (e, u) :: b2) st = Raise x st2 /\
  offset st2 = Some (update_id u + 1).
Proof.
  intros H1 H2. split.
  - rewrite for_updates_app, H1. simpl. unfold bind. rewrite H2. reflexivity.
  - pose proof (handle_update_offset e u st1) as H. rewrite H2 in H. exact H.
Qed.

Lemma batch_stops_at_raise_witness :
  for_updates [(sample_env, Update 3 (Some (Message 8 95 (Some "/start"))) None)]
    sample_started
  = Ret tt (final (for_updates
                     [(sample_env, Update 3 (Some (Message 8 95 (Some "/start"))) None)]
                     sample_started)) /\
  for_updates
    ([(sample_env, Update 3 (Some (Message 8 95 (Some "/start"))) None)] ++
     (Env 100 (inr (JNum 5)), Update 4 (Some (Message 8 95 (Some "/quiz"))) None) ::
     [(sample_env, Update 5 None (Some (Callback "cb1" 7 "yes")))])
    sample_started
  = Raise TypeError
      (final (handle_update (Env 100 (inr (JNum 5)))
                (Update 4 (Some (Message 8 95 (Some "/quiz"))) None)
                (final (for_updates
                          [(sample_env, Update 3 (Some (Message 8 95 (Some "/start"))) None)]
                          sample_started)))).
Proof.
  split; [reflexivity |].
  exact (proj1 (batch_stops_at_raise
           [(sample_env, Update 3 (Some (Message 8 95 (Some "/start"))) None)]
           [(sample_env, Update 5 None (Some (Callback "cb1" 7 "yes")))]
           (Env 100 (inr (JNum 5)))
           (Update 4 (Some (Message 8 95 (Some "/quiz"))) None)
           sample_started _ _ TypeError eq_refl eq_refl)).
Defined.

Lemma main_loop_app (p1 p2 : list fetch) (st : state) :
  main_loop (p1 ++ p2) st =
    match main_loop p1 st with
    | Ret _ st1 => main_loop p2 st1
    | Raise x st1 => Raise x st1
    end.
Proof.
  revert st. induction p1 as [| f p1 IH]; intros st; [reflexivity |].
  simpl. unfold bind. destruct (for_updates _ st); [apply IH | reflexivity].
Qed.

(** X17. A poll that fails in transport, or whose body has no ["result"]
    entry or an empty one, changes nothing: the loop goes on as if that
    poll had not taken place. *)
Theorem idle_poll_skipped (p1 p2 : list fetch) (f : fetch) (st : state) :
  f = FetchError \/ f = Body None \/ f = Body (Some []) ->
  main_loop (p1 ++ f :: p2) st = main_loop (p1 ++ p2) st.
Proof.
  intros Hf. rewrite !main_loop_app.
  destruct (main_loop p1 st) as [[] st1 | x st1]; [| reflexivity].
  destruct Hf as [-> | [-> | ->]]; reflexivity.
Qed.

Lemma idle_poll_skipped_witness :
  (FetchError = FetchError \/ FetchError = Body None \/ FetchError = Body (Some [])) /\
  main_loop ([Body (Some [(sample_env, Update 1 (Some (Message 7 95 (Some "/quiz"))) None)])]
             ++ FetchError
             :: [Body (Some [(sample_env, Update 2 None (Some (Callback "cb1" 7 "yes")))])])
    init
  = main_loop ([Body (Some [(sample_env, Update 1 (Some (Message 7 95 (Some "/quiz"))) None)])]
               ++ [Body (Some [(sample_env, Update 2 None (Some (Callback "cb1" 7 "yes")))])])
      init.
Proof.
  split; [left; reflexivity |].
  exact (idle_poll_skipped
           [Body (Some [(sample_env, Update 1 (Some (Message 7 95 (Some "/quiz"))) None)])]
           [Body (Some [(sample_env, Update 2 None (Some (Callback "cb1" 7 "yes")))])]
           FetchError init (or_introl eq_refl)).
Defined.

(** X18. The script reaches [main] exactly when [TOKEN] is set to a
    non-empty string; otherwise loading the module has already raised
    [ValueError], so the error branch under [if __name__ == '__main__'] is
    never taken. *)
Theorem startup_outcomes (token : option string) :
  startup token <> BootLogError /\
  (startup token = BootMain <-> exists t, token = Some t /\ t <> "") /\
  (startup token = BootValueError <-> token = None \/ token = Some "").
Proof.
  unfold startup. destruct token as [t |]; simpl.
  - destruct (String.eqb t "") eqn:E; simpl.
    + apply String.eqb_eq in E. subst t.
      split; [discriminate |]. split.
      * split; [discriminate | intros (t & [= <-] & Hne); contradiction].
      * split; auto.
    + apply String.eqb_neq in E.
      split; [discriminate |]. split.
      * split; [intros _; exists t; auto | reflexivity].
      * split; [discriminate | intros [H | [= ->]]; [discriminate | contradiction]].
  - split; [discriminate |]. split.
    + split; [discriminate | intros (t & H & _); discriminate].
    + split; auto.
Qed.
